(** * Authentication glue of the builder application

    A shallow embedding of three pieces of the builder's identity layer:

    - [UserEndpoint]: the profile-update route
      ([apps/builder/src/pages/api/users/[userId].ts]);
    - [CustomAdapter]: the Prisma-backed adapter handed to the
      authentication library ([features/auth/api/customAdapter]);
    - [AuthRoute]: the authentication route, its rate-limit gate and the
      [signIn] callback ([pages/api/auth/[...nextauth]]).

    Asynchronous functions are modelled by their sequential meaning: every
    [await] in the sources is immediately awaited, so a promise is the value
    (or the exception) it settles to.  The relational store is an explicit
    value threaded through the calls; telemetry is the list of events handed
    to [trackEvents], in order. *)

From Stdlib Require Import ZArith String Ascii List Bool Lia.
From stdpp Require Import base option list gmap fin_maps strings.

Local Open Scope string_scope.
Local Open Scope list_scope.

Set Warnings "-register-all".

(** ** JavaScript values and the bits of JS semantics the sources rely on *)

Module JS.

(** Values carried by request bodies and stored rows.  Numbers are kept
    integral: no number is inspected by the code under study beyond its
    truthiness. *)
Inductive value :=
| Undefined
| Null
| Bool (b : bool)
| Num (n : Z)
| Str (s : string)
| Arr (items : list value)
| Obj (fields : list (string * value)).

(** An object is a finite map from property names to values. *)
Abbreviation object := (gmap string value).

(** [ToBoolean]: what [if (v)], [!v] and [a || b] look at. *)
Definition truthy (v : value) : bool :=
  match v with
  | Undefined | Null => false
  | Bool b => b
  | Num n => negb (n =? 0)%Z
  | Str s => negb (s =? "")
  | Arr _ | Obj _ => true
  end.

(** Property read [o.k]: a missing property reads as [undefined]. *)
Definition get (o : object) (k : string) : value :=
  default Undefined (o !! k).

(** [a ?? b] *)
Definition nullish (a b : value) : value :=
  match a with
  | Undefined | Null => b
  | _ => a
  end.

(** Truthiness of a [string | null | undefined] field: [None] stands for
    the two absent values. *)
Definition truthy_str (s : option string) : bool :=
  match s with
  | Some s => negb (s =? "")
  | None => false
  end.

(** [a || b] on such fields. *)
Definition or_else (a : option string) (b : string) : string :=
  match a with
  | Some s => if s =? "" then b else s
  | None => b
  end.

(** [xs.includes(x)] on an array of strings. *)
Definition includes (xs : list string) (x : string) : bool :=
  existsb (String.eqb x) xs.

(** [s.split(sep)] for a one-character separator.  The result is never
    empty: a string without the separator is returned whole. *)
Fixpoint split_from (sep : ascii) (cur : string) (s : string) : list string :=
  match s with
  | EmptyString => [String.rev cur]
  | String c rest =>
      if Ascii.eqb c sep
      then String.rev cur :: split_from sep EmptyString rest
      else split_from sep (String c cur) rest
  end.

Definition split (sep : ascii) (s : string) : list string :=
  split_from sep EmptyString s.

(** [xs.join(sep)] for a one-character separator. *)
Fixpoint join (sep : ascii) (xs : list string) : string :=
  match xs with
  | [] => ""
  | [x] => x
  | x :: rest => x +:+ String sep (join sep rest)
  end.

(** Whether a character occurs in a string. *)
Fixpoint occurs (c : ascii) (s : string) : bool :=
  match s with
  | EmptyString => false
  | String d rest => Ascii.eqb d c || occurs c rest
  end.

End JS.

(** ** Shared vocabulary: exceptions, completions, telemetry *)

(** What a [throw] can carry in the code under study. *)
Inductive exn :=
| JsError (message : string)              (* [new Error(message)] *)
| PrismaKnownRequestError (code : string) (* the ORM's coded failures *)
| HTTPError.                              (* a failed outbound request *)

(** How a call ends: with a value, or with an exception. *)
Inductive completion (A : Type) :=
| Returned (a : A)
| Thrown (e : exn).
Arguments Returned {A} a.
Arguments Thrown {A} e.

(** The telemetry events built by the sources, by their [name]. *)
Inductive TelemetryEvent :=
| WorkspaceCreated (workspaceId userId : string)
| UserCreated (userId : string)
| UserLoggedIn (userId : string)
| UserLoggedOut (userId : string)
| UserUpdated (userId : string).

Definition event_name (e : TelemetryEvent) : string :=
  match e with
  | WorkspaceCreated _ _ => "Workspace created"
  | UserCreated _ => "User created"
  | UserLoggedIn _ => "User logged in"
  | UserLoggedOut _ => "User logged out"
  | UserUpdated _ => "User updated"
  end.

(** The ORM reports an operation on a record that does not exist with this
    code; [useVerificationToken] tests for it by name. *)
Definition P2025 : string := "P2025".

(** The configuration surface read by the sources ([@typebot.io/env]); an
    unset variable is [None], or [false] for a switch. *)
Record Env := {
  DISABLE_SIGNUP : bool;
  ADMIN_EMAIL : option (list string);
  USER_CREATED_WEBHOOK_URL : option string;
  REJECT_DISPOSABLE_EMAILS : bool;
  GITLAB_BASE_URL : option string;
  GITLAB_REQUIRED_GROUPS : option (list string);
  REDIS_URL : option string;
  NEXT_PUBLIC_E2E_TEST : bool
}.

(** ** The profile-update endpoint *)

Module UserEndpoint.
Import JS.

(** A stored user is the object of its columns. *)
Abbreviation Row := (gmap string JS.value).

(** [req.body]: the framework hands over either the raw text or the parsed
    object. *)
Inductive Body :=
| BodyText (raw : string)
| BodyJson (data : JS.object).

Record NextApiRequest := {
  method : string;
  query_userId : string;      (* [req.query.userId as string] *)
  body : Body
}.

(** The authenticated caller, as far as the handler reads it. *)
Record SessionUser := { user_id : string }.

Inductive Response :=
| Status (code : Z)            (* [res.status(code)] with an error body *)
| Send (typebots : Row).       (* [res.send({ typebots })], status 200 *)

Definition status_of (r : Response) : Z :=
  match r with
  | Status c => c
  | Send _ => 200
  end.

(** Modelled from the spec: [notAuthenticated] of [@typebot.io/lib/api/utils]
    is not among the sources; the spec gives the status it answers with
    ("401 if absent"). *)
Definition notAuthenticated : Response := Status 401.

(** Modelled from the spec: [methodNotAllowed] of [@typebot.io/lib/api/utils]
    is not among the sources; the spec gives the status it answers with
    ("Returns 405 for any non-PATCH method"). *)
Definition methodNotAllowed : Response := Status 405.

Definition displayedInAppNotifications : string := "displayedInAppNotifications".
Definition groupTitlesAutoGeneration : string := "groupTitlesAutoGeneration".
Definition onboardingCategories : string := "onboardingCategories".

(** *** The store operation [prisma.user.update] *)

Definition has_id (id : string) (r : Row) : bool :=
  match r !! "id" with
  | Some (Str i) => i =? id
  | _ => false
  end.

(** A property of [data] that is [undefined] leaves the column alone; any
    other value, [null] included, is written. *)
Definition apply_data (data : JS.object) (row : Row) : Row :=
  merge (fun d r =>
           match d with
           | Some Undefined | None => r
           | Some v => Some v
           end) data row.

(** Rewrites the first row selected by [where: { id }] and hands back the
    new row with the new table; [None] when no row is selected. *)
Fixpoint update_where_id (id : string) (data : JS.object) (rows : list Row)
  : option (Row * list Row) :=
  match rows with
  | [] => None
  | r :: rs =>
      if has_id id r
      then Some (apply_data data r, apply_data data r :: rs)
      else match update_where_id id data rs with
           | Some (r', rs') => Some (r', r :: rs')
           | None => None
           end
  end.

Definition prisma_user_update (users : list Row) (id : string) (data : JS.object)
  : completion (Row * list Row) :=
  match update_where_id id data users with
  | Some out => Returned out
  | None => Thrown (PrismaKnownRequestError P2025)
  end.

Section Handler.

(** Collaborators that are not among the sources: the session lookup
    and the JSON parser ([None]: the text is not a JSON object). *)
Variable getAuthenticatedUser : NextApiRequest -> option SessionUser.
Variable JSON_parse : string -> option JS.object.

(** [typeof req.body === "string" ? JSON.parse(req.body) : req.body] *)
Definition read_body (b : Body) : completion JS.object :=
  match b with
  | BodyText raw =>
      match JSON_parse raw with
      | Some data => Returned data
      | None => Thrown (JsError "SyntaxError")
      end
  | BodyJson data => Returned data
  end.

(** The object literal passed as [data] to the update. *)
Definition update_data (data : JS.object) : JS.object :=
  <[groupTitlesAutoGeneration :=
      nullish (get data groupTitlesAutoGeneration) Undefined]>
  (<[displayedInAppNotifications :=
      nullish (get data displayedInAppNotifications) Undefined]>
  (<[onboardingCategories := get data onboardingCategories]> data)).

(** The guard of the telemetry call. *)
Definition tracked (data : JS.object) : bool :=
  truthy (get data onboardingCategories)
  || truthy (get data "referral")
  || truthy (get data "company")
  || truthy (get data "name").

(** The handler: the response (or the exception that escapes it), the
    table afterwards, and the events handed to [trackEvents]. *)
Definition handler (req : NextApiRequest) (users : list Row)
  : completion Response * list Row * list TelemetryEvent :=
  match getAuthenticatedUser req with
  | None => (Returned notAuthenticated, users, [])
  | Some user =>
      let id := query_userId req in
      if method req =? "PATCH" then
        match read_body (body req) with
        | Thrown e => (Thrown e, users, [])
        | Returned data =>
            match prisma_user_update users id (update_data data) with
            | Thrown e => (Thrown e, users, [])
            | Returned (typebots, users') =>
                let events :=
                  if tracked data then [UserUpdated (user_id user)] else [] in
                (Returned (Send typebots), users', events)
            end
        end
      else (Returned methodNotAllowed, users, [])
  end.

End Handler.

End UserEndpoint.

(** ** The store adapter *)

Module CustomAdapter.
Import JS.

(** *** Rows of the relational store

    Enumerations of the schema ([WorkspaceRole], [Plan], collaboration types)
    are the strings they are at run time. *)

Definition WorkspaceRole_ADMIN : string := "ADMIN".

(** The payload handed to [createUser]; [None] is an absent, [null] or
    [undefined] property. *)
Record AdapterUser := {
  id : option string;
  email : option string;
  name : option string;
  image : option string;
  emailVerified : option Z
}.

Record UserRow := {
  u_id : string;
  u_email : string;
  u_name : option string;
  u_image : option string;
  u_emailVerified : option Z;
  u_onboardingCategories : list string
}.

Record ApiToken := { t_ownerId : string; t_name : string; t_token : string }.

Record Workspace := { w_id : string; w_name : string; w_plan : string }.

Record MemberInWorkspace := {
  m_userId : string; m_workspaceId : string; m_role : string
}.

Record Invitation := {
  inv_email : string; inv_typebotId : string; inv_type : string
}.

Record WorkspaceInvitation := {
  wi_email : string; wi_workspaceId : string; wi_type : string
}.

Record CollaboratorsOnTypebots := {
  c_userId : string; c_typebotId : string; c_type : string
}.

Record VerificationToken := {
  identifier : string; token : string; expires : Z
}.

#[global] Instance Invitation_eq_dec : EqDecision Invitation.
Proof. solve_decision. Defined.

#[global] Instance WorkspaceInvitation_eq_dec : EqDecision WorkspaceInvitation.
Proof. solve_decision. Defined.

(** The tables the adapter touches.  Verification tokens are keyed by their
    compound unique key [identifier_token]; the stored datum is the expiry. *)
Record DB := {
  users : list UserRow;
  apiTokens : list ApiToken;
  workspaces : list Workspace;
  members : list MemberInWorkspace;
  invitations : list Invitation;
  workspaceInvitations : list WorkspaceInvitation;
  collaborators : list CollaboratorsOnTypebots;
  verificationTokens : gmap (string * string) Z
}.

(** What the outside world answers during one call: the two generated
    identifiers, the key the store gives a nested workspace, and whether the
    webhook request goes through. *)
Record IO := {
  createId : string;          (* [createId()] *)
  generateId : string;        (* [generateId(24)] *)
  workspace_cuid : string;    (* primary key of a workspace created inline *)
  webhook_ok : bool
}.

(** Calls that leave the process, in the order they are made. *)
Inductive effect :=
| WebhookPost (url email : string)
| ConsoleError (message : string)
| TrackEvents (events : list TelemetryEvent).

(** The telemetry events among the effects of a call. *)
Fixpoint tracked_events (fx : list effect) : list TelemetryEvent :=
  match fx with
  | [] => []
  | TrackEvents es :: rest => es ++ tracked_events rest
  | _ :: rest => tracked_events rest
  end.

(** *** Store operations *)

Definition P2002 : string := "P2002".

(** Modelled from the spec: the schema is not among the sources; the spec's
    data model makes the user id stable and the email unique across user
    records, so a second row with either is refused. *)
Definition user_taken (p : DB) (uid uemail : string) : bool :=
  existsb (fun u => (u_id u =? uid) || (u_email u =? uemail)) (users p).

(** The nested write [workspaces: { create: { role, workspace: { create } } }]. *)
Record NestedWorkspace := {
  nw_role : string;
  nw_name : string;
  nw_plan : string
}.

(** The result of [p.user.create] with [include: { workspaces }]. *)
Record CreatedUser := {
  created_row : UserRow;
  created_workspaces : list string   (* the [workspaceId]s *)
}.

(** [p.user.create]: inserts the user with its default API token and, when
    [ws] is given, a workspace and the membership that ties the user to it.
    The user is new, so the memberships it is returned with are the ones
    written here. *)
Definition user_create (io : IO) (p : DB) (row : UserRow) (tok : ApiToken)
    (ws : option NestedWorkspace) : completion (CreatedUser * DB) :=
  if user_taken p (u_id row) (u_email row)
  then Thrown (PrismaKnownRequestError P2002)
  else
    let new_workspaces :=
      match ws with
      | Some w => [{| w_id := workspace_cuid io; w_name := nw_name w; w_plan := nw_plan w |}]
      | None => []
      end in
    let new_members :=
      match ws with
      | Some w => [{| m_userId := u_id row; m_workspaceId := workspace_cuid io;
                      m_role := nw_role w |}]
      | None => []
      end in
    Returned
      ({| created_row := row;
          created_workspaces := map m_workspaceId new_members |},
       {| users := users p ++ [row];
          apiTokens := apiTokens p ++ [tok];
          workspaces := workspaces p ++ new_workspaces;
          members := members p ++ new_members;
          invitations := invitations p;
          workspaceInvitations := workspaceInvitations p;
          collaborators := collaborators p;
          verificationTokens := verificationTokens p |}).

(** [p.verificationToken.delete({ where: { identifier_token } })]: removes
    the row and returns it; a missing row is the coded failure [P2025]. *)
Definition verificationToken_delete (p : DB) (key : string * string)
  : completion (VerificationToken * DB) :=
  match verificationTokens p !! key with
  | Some exp =>
      Returned
        ({| identifier := key.1; token := key.2; expires := exp |},
         {| users := users p;
            apiTokens := apiTokens p;
            workspaces := workspaces p;
            members := members p;
            invitations := invitations p;
            workspaceInvitations := workspaceInvitations p;
            collaborators := collaborators p;
            verificationTokens := delete key (verificationTokens p) |})
  | None => Thrown (PrismaKnownRequestError P2025)
  end.

(** [p.verificationToken.create({ data })] *)
Definition verificationToken_create (p : DB) (data : VerificationToken)
  : completion (VerificationToken * DB) :=
  match verificationTokens p !! (identifier data, token data) with
  | Some _ => Thrown (PrismaKnownRequestError P2002)
  | None =>
      Returned
        (data,
         {| users := users p;
            apiTokens := apiTokens p;
            workspaces := workspaces p;
            members := members p;
            invitations := invitations p;
            workspaceInvitations := workspaceInvitations p;
            collaborators := collaborators p;
            verificationTokens :=
              <[(identifier data, token data) := expires data]> (verificationTokens p) |})
  end.

(** *** Helpers of the repository that are not among the sources *)

(** Modelled from the spec: [getNewUserInvitations] is not among the sources.
    "Given an email, looks up pending direct invitations and pending
    workspace invitations.  Pure lookup, no mutation." *)
Definition getNewUserInvitations (p : DB) (user_email : string)
  : list Invitation * list WorkspaceInvitation :=
  (filter (fun i => inv_email i = user_email) (invitations p),
   filter (fun i => wi_email i = user_email) (workspaceInvitations p)).

(** Modelled from the spec: [convertInvitationsToCollaborations] is not among
    the sources.  "Converts any resolved direct invitations into
    collaborations"; an invitation is "consumed (deleted) once converted". *)
Definition convertInvitationsToCollaborations (p : DB) (uid : string)
    (resolved : list Invitation) : DB :=
  {| users := users p;
     apiTokens := apiTokens p;
     workspaces := workspaces p;
     members := members p;
     invitations := list_difference (invitations p) resolved;
     workspaceInvitations := workspaceInvitations p;
     collaborators :=
       collaborators p ++
       map (fun i => {| c_userId := uid; c_typebotId := inv_typebotId i;
                        c_type := inv_type i |}) resolved;
     verificationTokens := verificationTokens p |}.

(** The membership a workspace invitation turns into. *)
Definition membership_of (uid : string) (i : WorkspaceInvitation) : MemberInWorkspace :=
  {| m_userId := uid; m_workspaceId := wi_workspaceId i; m_role := wi_type i |}.

(** Modelled from the spec: [joinWorkspaces] is not among the sources.
    "Joins any resolved workspace invitations": each becomes a membership
    with the invitation's role and is "consumed (deleted) once converted". *)
Definition joinWorkspaces (p : DB) (uid : string)
    (resolved : list WorkspaceInvitation) : DB :=
  {| users := users p;
     apiTokens := apiTokens p;
     workspaces := workspaces p;
     members := members p ++ map (membership_of uid) resolved;
     invitations := invitations p;
     workspaceInvitations := list_difference (workspaceInvitations p) resolved;
     collaborators := collaborators p;
     verificationTokens := verificationTokens p |}.

(** *** The adapter *)

Definition MissingEmail : exn :=
  JsError "Provider did not forward email but it is required".

Definition SignupDisabled : exn := JsError "New users are forbidden".

Section Adapter.

(** Not among the sources: the default plan of a new workspace, from the
    owner's email. *)
Variable parseWorkspaceDefaultPlan : string -> string.

(** [createUser].  In the sign-up guard,
    [env.ADMIN_EMAIL?.every((email) => email !== user.email)] is [undefined]
    when the variable is unset, which the surrounding [&&] reads as false. *)
Definition createUser (env : Env) (io : IO) (p : DB) (data : AdapterUser)
  : completion UserRow * DB * list effect :=
  match email data with
  | None => (Thrown MissingEmail, p, [])
  | Some data_email =>
  if data_email =? "" then (Thrown MissingEmail, p, [])
  else
    let user_id := or_else (id data) (createId io) in
    let user_email := data_email in
    let '(invitations, workspaceInvitations) := getNewUserInvitations p user_email in
    if DISABLE_SIGNUP env
       && match ADMIN_EMAIL env with
          | Some admins => forallb (fun email => negb (email =? user_email)) admins
          | None => false
          end
       && (length invitations =? 0)%nat
       && (length workspaceInvitations =? 0)%nat
    then (Thrown SignupDisabled, p, [])
    else
      let newWorkspaceData :=
        {| nw_role := WorkspaceRole_ADMIN;
           nw_name := match name data with
                      | Some n => if n =? "" then "My workspace" else n +:+ "'s workspace"
                      | None => "My workspace"
                      end;
           nw_plan := parseWorkspaceDefaultPlan data_email |} in
      let row :=
        {| u_id := user_id;
           u_email := data_email;
           u_name := name data;
           u_image := image data;
           u_emailVerified := emailVerified data;
           u_onboardingCategories := [] |} in
      let tok :=
        {| t_ownerId := user_id; t_name := "Default"; t_token := generateId io |} in
      match user_create io p row tok
              (if (0 <? length workspaceInvitations)%nat
               then None else Some newWorkspaceData) with
      | Thrown e => (Thrown e, p, [])
      | Returned (createdUser, p1) =>
          let newWorkspaceId := last (created_workspaces createdUser) in
          let events :=
            match newWorkspaceId with
            | Some w =>
                if w =? "" then []
                else [WorkspaceCreated w (u_id (created_row createdUser))]
            | None => []
            end
            ++ [UserCreated (u_id (created_row createdUser))] in
          let webhook :=
            match USER_CREATED_WEBHOOK_URL env with
            | Some url =>
                if url =? "" then []
                else WebhookPost url (u_email (created_row createdUser))
                     :: (if webhook_ok io then []
                         else [ConsoleError "Failed to call user created webhook"])
            | None => []
            end in
          let p2 :=
            if (0 <? length invitations)%nat
            then convertInvitationsToCollaborations p1 user_id invitations
            else p1 in
          let p3 :=
            if (0 <? length workspaceInvitations)%nat
            then joinWorkspaces p2 user_id workspaceInvitations
            else p2 in
          (Returned (created_row createdUser), p3, webhook ++ [TrackEvents events])
      end
  end.

(** The field [code] of a caught error, when it has one. *)
Definition error_code (e : exn) : option string :=
  match e with
  | PrismaKnownRequestError c => Some c
  | _ => None
  end.

Definition useVerificationToken (p : DB) (identifier_token : string * string)
  : completion (option VerificationToken) * DB :=
  match verificationToken_delete p identifier_token with
  | Returned (row, p') => (Returned (Some row), p')
  | Thrown error =>
      if bool_decide (error_code error = Some P2025)
      then (Returned None, p)
      else (Thrown error, p)
  end.

Definition createVerificationToken (p : DB) (data : VerificationToken)
  : completion VerificationToken * DB :=
  match verificationToken_create p data with
  | Returned (row, p') => (Returned row, p')
  | Thrown e => (Thrown e, p)
  end.

End Adapter.

(** [getUser] and [getUserByEmail]: [findUnique] answers the row carrying
    the key, or null. *)
Definition getUser (p : DB) (id : string) : option UserRow :=
  List.find (fun u => u_id u =? id) (users p).

Definition getUserByEmail (p : DB) (email : string) : option UserRow :=
  List.find (fun u => u_email u =? email) (users p).

End CustomAdapter.

(** ** The authentication route *)

Module AuthRoute.
Import JS.

(** The tag [getAuthOptions] may be given: ["rate-limited"] or nothing. *)
Inductive Restricted := rate_limited.

(** The [account] payload of a sign-in, as far as it is read. *)
Record Account := {
  provider : string;
  access_token : option string
}.

(** The [user] payload of a sign-in.  [createdAt] is [Some] exactly when
    the property is present and neither [null] nor [undefined]. *)
Record User := {
  user_id : string;
  user_email : option string;
  createdAt : option Z
}.

Record GitlabGroup := { full_path : string }.

(** One page of the provider's group listing: the groups of its body and
    what [Number.parseInt] makes of its [X-Next-Page] header ([None]: NaN). *)
Record GroupsPage := {
  page_groups : list GitlabGroup;
  next_page : option Z
}.

(** What the callback reads from outside: the store, the text of the
    disposable-domain list and the provider's group listing (by bearer token
    and page).  [None] is a request that fails. *)
Record World := {
  prisma : CustomAdapter.DB;
  disposable_blocklist : option string;
  gitlab_groups : option string -> Z -> option GroupsPage
}.

(** [isDefined] of [@typebot.io/lib/utils]: neither [undefined] nor [null]. *)
Definition isDefined {A} (v : option A) : bool :=
  match v with Some _ => true | None => false end.

(** [getGitlabGroups]: one request per page, following the next-page header
    while it parses to a non-zero number.  The recursion is driven by the
    provider's answers, hence the fuel: [None] means it ran out. *)
Fixpoint getGitlabGroups (fuel : nat) (w : World) (accessToken : option string)
    (page : Z) : option (completion (list GitlabGroup)) :=
  match fuel with
  | O => None
  | S fuel' =>
      match gitlab_groups w accessToken page with
      | None => Some (Thrown HTTPError)
      | Some res =>
          let groups := page_groups res in
          match next_page res with
          | Some nextPage =>
              if (nextPage =? 0)%Z then Some (Returned groups)
              else
                match getGitlabGroups fuel' w accessToken nextPage with
                | Some (Returned more) => Some (Returned (groups ++ more))
                | Some (Thrown e) => Some (Thrown e)
                | None => None
                end
          | None => Some (Returned groups)
          end
      end
  end.

Definition getUserGroups (fuel : nat) (w : World) (account : Account)
  : option (completion (list string)) :=
  if provider account =? "gitlab" then
    match getGitlabGroups fuel w (access_token account) 1 with
    | Some (Returned groups) => Some (Returned (map full_path groups))
    | Some (Thrown e) => Some (Thrown e)
    | None => None
    end
  else Some (Returned []).

Definition getRequiredGroups (env : Env) (provider : string) : list string :=
  if provider =? "gitlab" then default [] (GITLAB_REQUIRED_GROUPS env)
  else [].

Definition checkHasGroups (userGroups requiredGroups : list string) : bool :=
  existsb (fun userGroup => includes requiredGroups userGroup) userGroups.

(** A stage of the callback either lets the attempt through to the next one
    or ends it. *)
Inductive stage :=
| Continue
| Exit (r : completion bool).

Definition RateLimited : exn := JsError "rate-limited".
Definition SignUpDisabled : exn := JsError "sign-up-disabled".

(** [callbacks.signIn] of the options built for [restricted]: the value
    returned (or the exception thrown) and the events tracked.  [None] only
    when the group listing ran out of fuel. *)
Definition signIn (restricted : option Restricted) (env : Env) (fuel : nat)
    (w : World) (account : option Account) (user : User)
  : option (completion bool * list TelemetryEvent) :=
  match restricted with
  | Some rate_limited => Some (Thrown RateLimited, [])
  | None =>
  match account with
  | None => Some (Returned false, [])
  | Some account =>
  let isNewUser := negb (isDefined (createdAt user)) in
  let disposable :=
    match user_email user with
    | Some user_email =>
        if isNewUser
           && negb (user_email =? "")
           && match ADMIN_EMAIL env with
              | None => true
              | Some admins => negb (includes admins user_email)
              end
           && REJECT_DISPOSABLE_EMAILS env
        then
          match disposable_blocklist w with
          | None => Exit (Thrown HTTPError)
          | Some data =>
              let disposableEmailDomains := split "010"%char data in
              match nth_error (split "@"%char user_email) 1 with
              | Some domain =>
                  if includes disposableEmailDomains domain
                  then Exit (Returned false) else Continue
              | None => Continue
              end
          end
        else Continue
    | None => Continue
    end in
  match disposable with
  | Exit r => Some (r, [])
  | Continue =>
  let signup :=
    match user_email user with
    | Some user_email =>
        if DISABLE_SIGNUP env
           && isNewUser
           && negb (user_email =? "")
           && negb match ADMIN_EMAIL env with
                   | None => false
                   | Some admins => includes admins user_email
                   end
        then
          let '(invitations, workspaceInvitations) :=
            CustomAdapter.getNewUserInvitations (prisma w) user_email in
          if (length invitations =? 0)%nat && (length workspaceInvitations =? 0)%nat
          then Exit (Thrown SignUpDisabled) else Continue
        else Continue
    | None => Continue
    end in
  match signup with
  | Exit r => Some (r, [])
  | Continue =>
  let requiredGroups := getRequiredGroups env (provider account) in
  if (0 <? length requiredGroups)%nat then
    match getUserGroups fuel w account with
    | Some (Returned userGroups) =>
        Some (Returned (checkHasGroups userGroups requiredGroups), [])
    | Some (Thrown e) => Some (Thrown e, [])
    | None => None
    end
  else
    Some (Returned true,
          if negb isNewUser then [UserLoggedIn (user_id user)] else [])
  end end end end.

(** The part of [AuthOptions] that depends on the tag. *)
Record AuthOptions := {
  callbacks_signIn :
    Env -> nat -> World -> option Account -> User ->
    option (completion bool * list TelemetryEvent)
}.

Definition getAuthOptions (restricted : option Restricted) : AuthOptions :=
  {| callbacks_signIn := signIn restricted |}.

Record NextApiRequest := {
  method : string;
  url : option string
}.

(** How the route handler ends: an empty answer with a status, the mocked
    session, or the hand-over to the authentication library. *)
Inductive Outcome :=
| StatusEnd (code : Z)
| SendMockedUser
| NextAuth (options : AuthOptions).

Section Handler.

(** Not among the sources: how the caller's address is read off a request. *)
Variable getIp : NextApiRequest -> option string.

(** The rate-limiting library: the state it keeps in its backing store and
    its sliding-window limiter for a number of requests per window (in
    seconds).  [limit] answers whether the request is within the limit. *)
Variable LimiterState : Type.
Variable slidingWindow : nat -> nat -> string -> LimiterState -> bool * LimiterState.

(** [emailSignInRateLimiter]: only defined when a backing store is
    configured; one request per sixty seconds. *)
Definition emailSignInRateLimiter (env : Env)
  : option (string -> LimiterState -> bool * LimiterState) :=
  match REDIS_URL env with
  | Some redis_url => if redis_url =? "" then None else Some (slidingWindow 1 60)
  | None => None
  end.

Definition handler (env : Env) (req : NextApiRequest) (st : LimiterState)
  : Outcome * LimiterState :=
  if method req =? "HEAD" then (StatusEnd 200, st)
  else
    let isMockingSession :=
      (method req =? "GET")
      && bool_decide (url req = Some "/api/auth/session")
      && NEXT_PUBLIC_E2E_TEST env in
    if isMockingSession then (SendMockedUser, st)
    else
      let requestIsFromCompanyFirewall := method req =? "HEAD" in
      if requestIsFromCompanyFirewall then (StatusEnd 200, st)
      else
        let '(restricted, st') :=
          match emailSignInRateLimiter env with
          | Some limit =>
              if match url req with
                 | Some u => String.prefix "/api/auth/signin/email" u
                 | None => false
                 end
                 && (method req =? "POST")
              then
                match getIp req with
                | Some ip =>
                    if ip =? "" then (None, st)
                    else
                      let '(success, st') := limit ip st in
                      (if success then None else Some rate_limited, st')
                | None => (None, st)
                end
              else (None, st)
          | None => (None, st)
          end in
        (NextAuth (getAuthOptions restricted), st').

End Handler.

(** *** The credentials provider *)

(** The submitted credentials; a field the form did not carry is [None]. *)
Record Credentials := {
  authToken : option string;
  apiHost : option string;
  tenantId : option string
}.

(** The user object the remote host answers with, as far as it is read. *)
Record RemoteUser := {
  remote_id : string;
  remote_email : option string;
  remote_name : option string;
  remote_image : option string;
  remote_emailVerified : option Z
}.

Section Credentials.

Variable parseWorkspaceDefaultPlan : string -> string.

(** [env.TYPEBOT_CODE], unset when [None]. *)
Variable TYPEBOT_CODE : option string.

(** The answer to [GET host/api/typebot/client] with the [tenantId] header,
    decoded; [None] when the request or the decoding fails. *)
Variable client_api : option string -> option string -> option RemoteUser.

Definition request_failed : CustomAdapter.effect :=
  CustomAdapter.ConsoleError "Erro ao fazer a requisição:".

(** [authorize]: the user handed to the library (or null), the store
    afterwards and the effects, in order. *)
Definition authorize (env : Env) (io : CustomAdapter.IO) (p : CustomAdapter.DB)
    (credentials : option Credentials)
  : option RemoteUser * CustomAdapter.DB * list CustomAdapter.effect :=
  if negb (bool_decide (credentials ≫= authToken = TYPEBOT_CODE))
  then (None, p, [])
  else
    let host := credentials ≫= apiHost in
    match client_api host (credentials ≫= tenantId) with
    | None => (None, p, [request_failed])
    | Some user =>
        let find := CustomAdapter.getUser p (remote_id user) in
        match find with
        | Some _ => (Some user, p, [])
        | None =>
            match CustomAdapter.createUser parseWorkspaceDefaultPlan env io p
                    {| CustomAdapter.id := Some (remote_id user);
                       CustomAdapter.email := remote_email user;
                       CustomAdapter.name := remote_name user;
                       CustomAdapter.image := remote_image user;
                       CustomAdapter.emailVerified := remote_emailVerified user |} with
            | (Returned userAdater, p', fx) =>
                (Some {| remote_id := CustomAdapter.u_id userAdater;
                         remote_email := Some (CustomAdapter.u_email userAdater);
                         remote_name :=
                           if truthy_str (CustomAdapter.u_name userAdater)
                           then CustomAdapter.u_name userAdater else None;
                         remote_image :=
                           if truthy_str (CustomAdapter.u_image userAdater)
                           then CustomAdapter.u_image userAdater else None;
                         remote_emailVerified := remote_emailVerified user |},
                 p', fx)
            | (Thrown _, p', fx) => (None, p', fx ++ [request_failed])
            end
        end
    end.

End Credentials.

End AuthRoute.

(** ** Sample data

    Concrete requests, rows and configurations on which the properties below
    are exercised. *)

Module Fixtures.
Import JS.

Definition alice : UserEndpoint.SessionUser := {| UserEndpoint.user_id := "u1" |}.

Definition signed_in_as_alice (_ : UserEndpoint.NextApiRequest)
  : option UserEndpoint.SessionUser := Some alice.

Definition signed_out (_ : UserEndpoint.NextApiRequest)
  : option UserEndpoint.SessionUser := None.

(** A parser that never gets to run: the sample bodies are already parsed. *)
Definition no_text (_ : string) : option JS.object := None.

Definition patch (data : JS.object) : UserEndpoint.NextApiRequest :=
  {| UserEndpoint.method := "PATCH";
     UserEndpoint.query_userId := "u1";
     UserEndpoint.body := UserEndpoint.BodyJson data |}.

Definition get_request : UserEndpoint.NextApiRequest :=
  {| UserEndpoint.method := "GET";
     UserEndpoint.query_userId := "u1";
     UserEndpoint.body := UserEndpoint.BodyJson ∅ |}.

Definition alice_row : gmap string JS.value :=
  <["id" := Str "u1"]>
  (<["name" := Str "Alice"]>
  (<["company" := Str "Acme"]>
  (<[UserEndpoint.displayedInAppNotifications := Obj [("welcome", Bool true)]]> ∅))).

(** A store with one verification token, one direct invitation and one
    workspace invitation, both for the same invitee. *)
Definition sample_db : CustomAdapter.DB :=
  {| CustomAdapter.users := [];
     CustomAdapter.apiTokens := [];
     CustomAdapter.workspaces :=
       [{| CustomAdapter.w_id := "w1"; CustomAdapter.w_name := "Team";
           CustomAdapter.w_plan := "PRO" |}];
     CustomAdapter.members := [];
     CustomAdapter.invitations :=
       [{| CustomAdapter.inv_email := "guest@example.org";
           CustomAdapter.inv_typebotId := "t1";
           CustomAdapter.inv_type := "READ" |}];
     CustomAdapter.workspaceInvitations :=
       [{| CustomAdapter.wi_email := "guest@example.org";
           CustomAdapter.wi_workspaceId := "w1";
           CustomAdapter.wi_type := "MEMBER" |}];
     CustomAdapter.collaborators := [];
     CustomAdapter.verificationTokens := {[ ("bob@example.org", "424242") := 1700000000%Z ]} |}.

Definition sample_io : CustomAdapter.IO :=
  {| CustomAdapter.createId := "cuid1";
     CustomAdapter.generateId := "tok1";
     CustomAdapter.workspace_cuid := "w2";
     CustomAdapter.webhook_ok := true |}.

Definition free_plan (_ : string) : string := "FREE".

Definition payload (address : string) : CustomAdapter.AdapterUser :=
  {| CustomAdapter.id := None;
     CustomAdapter.email := Some address;
     CustomAdapter.name := None;
     CustomAdapter.image := None;
     CustomAdapter.emailVerified := None |}.

(** Sign-up is switched off and no administrator address is configured. *)
Definition signup_off_no_admins : Env :=
  {| DISABLE_SIGNUP := true;
     ADMIN_EMAIL := None;
     USER_CREATED_WEBHOOK_URL := None;
     REJECT_DISPOSABLE_EMAILS := false;
     GITLAB_BASE_URL := None;
     GITLAB_REQUIRED_GROUPS := None;
     REDIS_URL := None;
     NEXT_PUBLIC_E2E_TEST := false |}.

(** Sign-up is switched off and one administrator address is configured. *)
Definition signup_off_one_admin : Env :=
  {| DISABLE_SIGNUP := true;
     ADMIN_EMAIL := Some ["root@example.org"];
     USER_CREATED_WEBHOOK_URL := None;
     REJECT_DISPOSABLE_EMAILS := false;
     GITLAB_BASE_URL := None;
     GITLAB_REQUIRED_GROUPS := None;
     REDIS_URL := None;
     NEXT_PUBLIC_E2E_TEST := false |}.

(** Every gate switched on, and a required group for the one provider that
    lists groups. *)
Definition locked_down : Env :=
  {| DISABLE_SIGNUP := true;
     ADMIN_EMAIL := Some ["root@example.org"];
     USER_CREATED_WEBHOOK_URL := None;
     REJECT_DISPOSABLE_EMAILS := true;
     GITLAB_BASE_URL := None;
     GITLAB_REQUIRED_GROUPS := Some ["b"; "c"];
     REDIS_URL := Some "redis://cache:6379";
     NEXT_PUBLIC_E2E_TEST := false |}.

(** The same configuration without the group requirement. *)
Definition locked_down_any_group : Env :=
  {| DISABLE_SIGNUP := true;
     ADMIN_EMAIL := Some ["root@example.org"];
     USER_CREATED_WEBHOOK_URL := None;
     REJECT_DISPOSABLE_EMAILS := true;
     GITLAB_BASE_URL := None;
     GITLAB_REQUIRED_GROUPS := None;
     REDIS_URL := Some "redis://cache:6379";
     NEXT_PUBLIC_E2E_TEST := false |}.

Definition gitlab_account : AuthRoute.Account :=
  {| AuthRoute.provider := "gitlab"; AuthRoute.access_token := Some "glpat" |}.

Definition github_account : AuthRoute.Account :=
  {| AuthRoute.provider := "github"; AuthRoute.access_token := Some "gho" |}.

(** A user the store already knows. *)
Definition returning_user : AuthRoute.User :=
  {| AuthRoute.user_id := "u1";
     AuthRoute.user_email := Some "alice@example.org";
     AuthRoute.createdAt := Some 1600000000%Z |}.

(** A first-time user whose provider forwarded no address. *)
Definition new_user_without_email : AuthRoute.User :=
  {| AuthRoute.user_id := "u9";
     AuthRoute.user_email := None;
     AuthRoute.createdAt := None |}.

(** The provider lists the groups "a" and "b" on a single page. *)
Definition sample_world : AuthRoute.World :=
  {| AuthRoute.prisma := sample_db;
     AuthRoute.disposable_blocklist := Some "mailinator.com
yopmail.com";
     AuthRoute.gitlab_groups := fun _ _ =>
       Some {| AuthRoute.page_groups :=
                 [{| AuthRoute.full_path := "a" |}; {| AuthRoute.full_path := "b" |}];
               AuthRoute.next_page := None |} |}.

Definition signin_email_post : AuthRoute.NextApiRequest :=
  {| AuthRoute.method := "POST";
     AuthRoute.url := Some "/api/auth/signin/email?callbackUrl=%2F" |}.

Definition ip_of_sample (_ : AuthRoute.NextApiRequest) : option string :=
  Some "203.0.113.7".

(** A stand-in for the limiter of the rate-limiting library: its state is
    the list of (address, second) pairs it let through, followed by the
    current second; a request is within the limit when fewer than [tokens]
    entries of its address fall in the trailing [window] seconds. *)
Definition log_limiter (tokens window : nat) (ip : string)
    (st : list (string * nat) * nat) : bool * (list (string * nat) * nat) :=
  let recent :=
    List.filter (fun e => (e.1 =? ip) && (st.2 <? e.2 + window)%nat) st.1 in
  if (length recent <? tokens)%nat
  then (true, ((ip, st.2) :: st.1, st.2))
  else (false, st).

(** The webhook is configured; sign-up is open. *)
Definition with_webhook : Env :=
  {| DISABLE_SIGNUP := false;
     ADMIN_EMAIL := None;
     USER_CREATED_WEBHOOK_URL := Some "https://hooks.example.org/user";
     REJECT_DISPOSABLE_EMAILS := false;
     GITLAB_BASE_URL := None;
     GITLAB_REQUIRED_GROUPS := None;
     REDIS_URL := None;
     NEXT_PUBLIC_E2E_TEST := false |}.

(** The same answers as [sample_io], but the webhook request fails. *)
Definition webhook_down : CustomAdapter.IO :=
  {| CustomAdapter.createId := "cuid1";
     CustomAdapter.generateId := "tok1";
     CustomAdapter.workspace_cuid := "w2";
     CustomAdapter.webhook_ok := false |}.

(** [locked_down] with sign-up enabled. *)
Definition locked_down_open_signup : Env :=
  {| DISABLE_SIGNUP := false;
     ADMIN_EMAIL := Some ["root@example.org"];
     USER_CREATED_WEBHOOK_URL := None;
     REJECT_DISPOSABLE_EMAILS := true;
     GITLAB_BASE_URL := None;
     GITLAB_REQUIRED_GROUPS := Some ["b"; "c"];
     REDIS_URL := Some "redis://cache:6379";
     NEXT_PUBLIC_E2E_TEST := false |}.

(** A first-time user with the given address. *)
Definition newcomer (address : string) : AuthRoute.User :=
  {| AuthRoute.user_id := "u7";
     AuthRoute.user_email := Some address;
     AuthRoute.createdAt := None |}.

(** The provider serves two pages of groups. *)
Definition paged_world : AuthRoute.World :=
  {| AuthRoute.prisma := sample_db;
     AuthRoute.disposable_blocklist := None;
     AuthRoute.gitlab_groups := fun _ page =>
       if (page =? 1)%Z then
         Some {| AuthRoute.page_groups := [{| AuthRoute.full_path := "a" |}];
                 AuthRoute.next_page := Some 2%Z |}
       else if (page =? 2)%Z then
         Some {| AuthRoute.page_groups := [{| AuthRoute.full_path := "b" |}];
                 AuthRoute.next_page := None |}
       else None |}.


(** The provider serves a first page and fails on the second. *)
Definition broken_world : AuthRoute.World :=
  {| AuthRoute.prisma := sample_db;
     AuthRoute.disposable_blocklist := None;
     AuthRoute.gitlab_groups := fun _ page =>
       if (page =? 1)%Z then
         Some {| AuthRoute.page_groups := [{| AuthRoute.full_path := "a" |}];
                 AuthRoute.next_page := Some 2%Z |}
       else None |}.

Definition head_request : AuthRoute.NextApiRequest :=
  {| AuthRoute.method := "HEAD"; AuthRoute.url := Some "/api/auth/callback/email" |}.

Definition good_credentials : AuthRoute.Credentials :=
  {| AuthRoute.authToken := Some "s3cret";
     AuthRoute.apiHost := Some "https://crm.example.org";
     AuthRoute.tenantId := Some "t-42" |}.


(** The remote host knows one user, whatever the tenant. *)
Definition remote_host (_ _ : option string) : option AuthRoute.RemoteUser :=
  Some {| AuthRoute.remote_id := "r1";
          AuthRoute.remote_email := Some "remote@example.org";
          AuthRoute.remote_name := Some "Remote";
          AuthRoute.remote_image := None;
          AuthRoute.remote_emailVerified := None |}.

Definition bob : UserEndpoint.SessionUser := {| UserEndpoint.user_id := "u2" |}.

Definition signed_in_as_bob (_ : UserEndpoint.NextApiRequest)
  : option UserEndpoint.SessionUser := Some bob.

End Fixtures.

(** * Properties *)

(** ** JavaScript helpers *)

Module JSFacts.
Import JS.

Lemma includes_In xs x : includes xs x = true <-> In x xs.
Proof.
  unfold includes. rewrite existsb_exists. split.
  - intros (y & Hy & Heq). apply String.eqb_eq in Heq. now subst.
  - intros Hin. exists x. split; [assumption | apply String.eqb_refl].
Qed.

Lemma truthy_Str s : truthy (Str s) = true <-> s <> "".
Proof.
  simpl. destruct (String.eqb_spec s ""); simpl; split; congruence.
Qed.

Lemma get_lookup (o : object) k v : o !! k = Some v -> get o k = v.
Proof. unfold get. now intros ->. Qed.

Lemma get_absent (o : object) k : o !! k = None -> get o k = Undefined.
Proof. unfold get. now intros ->. Qed.

End JSFacts.

(** ** The profile-update endpoint *)

Module UserEndpointFacts.
Import JS JSFacts UserEndpoint.

(** The columns an update writes, one property at a time. *)
Lemma apply_data_lookup (data : JS.object) (row : Row) k :
  apply_data data row !! k =
  match data !! k with
  | Some Undefined | None => row !! k
  | Some v => Some v
  end.
Proof.
  unfold apply_data. rewrite lookup_merge.
  destruct (data !! k) as [[]|], (row !! k); reflexivity.
Qed.

(** The object literal of the handler, one property at a time. *)
Lemma update_data_lookup (data : JS.object) k :
  update_data data !! k =
  if decide (k = groupTitlesAutoGeneration)
  then Some (nullish (get data groupTitlesAutoGeneration) Undefined)
  else if decide (k = displayedInAppNotifications)
  then Some (nullish (get data displayedInAppNotifications) Undefined)
  else if decide (k = onboardingCategories)
  then Some (get data onboardingCategories)
  else data !! k.
Proof.
  unfold update_data.
  repeat (rewrite lookup_insert; destruct (decide _); [subst | ]).
  - now rewrite decide_True.
  - rewrite decide_False by congruence. now rewrite decide_True.
  - do 2 rewrite decide_False by congruence. now rewrite decide_True.
  - now repeat rewrite decide_False by congruence.
Qed.

(** What the update leaves in a column, in terms of the request body. *)
Lemma patched_lookup (data : JS.object) (row : Row) k :
  apply_data (update_data data) row !! k =
  match data !! k with
  | None | Some Undefined => row !! k
  | Some Null =>
      if decide (k = groupTitlesAutoGeneration \/ k = displayedInAppNotifications)
      then row !! k else Some Null
  | Some v => Some v
  end.
Proof.
  rewrite apply_data_lookup, update_data_lookup. unfold get.
  destruct (decide (k = groupTitlesAutoGeneration)) as [->|Hg].
  { rewrite decide_True by now left.
    destruct (data !! groupTitlesAutoGeneration) as [[]|]; reflexivity. }
  destruct (decide (k = displayedInAppNotifications)) as [->|Hd].
  { rewrite decide_True by now right.
    destruct (data !! displayedInAppNotifications) as [[]|]; reflexivity. }
  rewrite (decide_False (P := k = groupTitlesAutoGeneration \/ k = displayedInAppNotifications))
    by (intros [?|?]; contradiction).
  destruct (decide (k = onboardingCategories)) as [->|Ho].
  { destruct (data !! onboardingCategories) as [[]|]; reflexivity. }
  destruct (data !! k) as [[]|]; reflexivity.
Qed.

(** [where: { id }] selects the first row carrying the id. *)
Lemma update_where_id_selects id data (pre post : list Row) (row : Row) :
  forallb (fun r => negb (has_id id r)) pre = true ->
  has_id id row = true ->
  update_where_id id data (pre ++ row :: post) =
  Some (apply_data data row, pre ++ apply_data data row :: post).
Proof.
  intros Hpre Hrow. induction pre as [|r pre IH]; simpl.
  - now rewrite Hrow.
  - simpl in Hpre. apply andb_true_iff in Hpre as [Hr Hpre].
    apply negb_true_iff in Hr. rewrite Hr, (IH Hpre). reflexivity.
Qed.

Lemma update_where_id_none id data (rows : list Row) :
  forallb (fun r => negb (has_id id r)) rows = true ->
  update_where_id id data rows = None.
Proof.
  induction rows as [|r rows IH]; simpl; [reflexivity|].
  intros H. apply andb_true_iff in H as [Hr Hrows].
  apply negb_true_iff in Hr. now rewrite Hr, (IH Hrows).
Qed.

Section Handler.

Variable getAuthenticatedUser : NextApiRequest -> option SessionUser.
Variable JSON_parse : string -> option JS.object.

Abbreviation handler := (handler getAuthenticatedUser JSON_parse).
Abbreviation read_body := (read_body JSON_parse).

(** An authenticated PATCH whose body reads as [data] and whose target row
    exists answers with the rewritten row. *)
Lemma handler_patch req user data (pre post : list Row) (row : Row) :
  getAuthenticatedUser req = Some user ->
  method req = "PATCH" ->
  read_body (body req) = Returned data ->
  forallb (fun r => negb (has_id (query_userId req) r)) pre = true ->
  has_id (query_userId req) row = true ->
  handler req (pre ++ row :: post) =
  (Returned (Send (apply_data (update_data data) row)),
   pre ++ apply_data (update_data data) row :: post,
   if tracked data then [UserUpdated (user_id user)] else []).
Proof.
  intros Hauth Hm Hbody Hpre Hrow. unfold UserEndpoint.handler.
  rewrite Hauth, Hm, Hbody. simpl. unfold prisma_user_update.
  now rewrite (update_where_id_selects _ _ _ _ _ Hpre Hrow).
Qed.

(** An authenticated PATCH for an id no row carries: the update fails with
    the store's "record not found", nothing is written and nothing tracked. *)
Lemma handler_patch_unknown_user req user data (users : list Row) :
  getAuthenticatedUser req = Some user ->
  method req = "PATCH" ->
  read_body (body req) = Returned data ->
  forallb (fun r => negb (has_id (query_userId req) r)) users = true ->
  handler req users = (Thrown (PrismaKnownRequestError P2025), users, []).
Proof.
  intros Hauth Hm Hbody Hnone. unfold UserEndpoint.handler.
  rewrite Hauth, Hm, Hbody. simpl. unfold prisma_user_update.
  now rewrite (update_where_id_none _ _ _ Hnone).
Qed.

Lemma tracked_iff data :
  tracked data = true <->
  exists k, In k [onboardingCategories; "referral"; "company"; "name"]
            /\ truthy (get data k) = true.
Proof.
  unfold tracked. rewrite !orb_true_iff. split.
  - intros [[[H|H]|H]|H]; eexists; (split; [|exact H]); simpl; tauto.
  - intros (k & Hk & Ht).
    destruct Hk as [<-|[<-|[<-|[<-|[]]]]];
      [left; left; left | left; left; right | left; right | right]; exact Ht.
Qed.

(** C8, as amended: a request without an authenticated caller is answered
    401 whatever its method, and a request of an authenticated caller with a
    method other than PATCH is answered 405; neither touches the store or
    emits telemetry. *)
Theorem profile_endpoint_401_before_405 req (users : list Row) :
  (getAuthenticatedUser req = None ->
   handler req users = (Returned (Status 401), users, [])) /\
  (forall user, getAuthenticatedUser req = Some user ->
   method req <> "PATCH" ->
   handler req users = (Returned (Status 405), users, [])).
Proof.
  unfold UserEndpoint.handler. split.
  - intros ->. reflexivity.
  - intros user -> Hm. apply String.eqb_neq in Hm. now rewrite Hm.
Qed.

(** C6, as amended: on an authenticated PATCH that the store accepts, a
    "User updated" event is emitted exactly when the body carries a truthy
    value for one of onboardingCategories, referral, company, name, whether
    or not the stored value changes; there is never more than one; a body
    without these four properties emits none, and a body with a non-empty
    company emits exactly one. *)
Theorem user_updated_event_iff_truthy_field
    req user data (pre post : list Row) (row : Row) :
  getAuthenticatedUser req = Some user ->
  method req = "PATCH" ->
  read_body (body req) = Returned data ->
  forallb (fun r => negb (has_id (query_userId req) r)) pre = true ->
  has_id (query_userId req) row = true ->
  let events := (handler req (pre ++ row :: post)).2 in
  (In (UserUpdated (user_id user)) events <->
   exists k, In k [onboardingCategories; "referral"; "company"; "name"]
             /\ truthy (get data k) = true) /\
  (events = [] \/ events = [UserUpdated (user_id user)]) /\
  ((forall k, In k [onboardingCategories; "referral"; "company"; "name"] ->
              data !! k = None) -> events = []) /\
  (forall s, data !! "company" = Some (Str s) -> s <> "" ->
             events = [UserUpdated (user_id user)]).
Proof.
  intros Hauth Hm Hbody Hpre Hrow events. subst events.
  rewrite (handler_patch _ _ _ _ _ _ Hauth Hm Hbody Hpre Hrow). cbn [snd].
  repeat split.
  - destruct (tracked data) eqn:E; [intros _; now apply tracked_iff | intros []].
  - intros Hk. apply tracked_iff in Hk. rewrite Hk. now left.
  - destruct (tracked data); [now right | now left].
  - intros Hnone. destruct (tracked data) eqn:E; [|reflexivity].
    apply tracked_iff in E as (k & Hk & Htr).
    rewrite (get_absent _ _ (Hnone k Hk)) in Htr. discriminate.
  - intros s Hs Hne.
    assert (tracked data = true) as ->; [|reflexivity].
    apply tracked_iff. exists "company". split; [simpl; tauto|].
    rewrite (get_lookup _ _ _ Hs). now apply truthy_Str.
Qed.

(** C10: on an authenticated PATCH that the store accepts, a body that sets
    displayedInAppNotifications or groupTitlesAutoGeneration to null leaves
    that column as it was; every other property the body supplies is written
    as given; a column the body does not name keeps its value. *)
Theorem patch_keeps_null_preferences_and_merges_the_rest
    req user data (pre post : list Row) (row : Row) :
  getAuthenticatedUser req = Some user ->
  method req = "PATCH" ->
  read_body (body req) = Returned data ->
  forallb (fun r => negb (has_id (query_userId req) r)) pre = true ->
  has_id (query_userId req) row = true ->
  exists row' : Row,
    (handler req (pre ++ row :: post)).1 =
      (Returned (Send row'), pre ++ row' :: post) /\
    (forall k, k = displayedInAppNotifications \/ k = groupTitlesAutoGeneration ->
               data !! k = Some Null -> row' !! k = row !! k) /\
    (forall k v, data !! k = Some v -> v <> Undefined ->
                 ~ ((k = displayedInAppNotifications \/ k = groupTitlesAutoGeneration)
                    /\ v = Null) ->
                 row' !! k = Some v) /\
    (forall k, data !! k = None -> row' !! k = row !! k).
Proof.
  intros Hauth Hm Hbody Hpre Hrow.
  exists (apply_data (update_data data) row).
  rewrite (handler_patch _ _ _ _ _ _ Hauth Hm Hbody Hpre Hrow). cbn [fst].
  split; [reflexivity|]. repeat split.
  - intros k Hk Hnull. rewrite patched_lookup, Hnull.
    rewrite decide_True by tauto. reflexivity.
  - intros k v Hv Hdef Hnot. rewrite patched_lookup, Hv.
    destruct v; try reflexivity; [congruence|].
    rewrite decide_False by tauto. reflexivity.
  - intros k Hnone. rewrite patched_lookup, Hnone. reflexivity.
Qed.

End Handler.

End UserEndpointFacts.

(** ** The profile-update endpoint on sample requests *)

Module UserEndpointExamples.
Import JS UserEndpoint UserEndpointFacts Fixtures.

(** C8 as first stated fails: a GET without an authenticated caller is a
    request with a method other than PATCH, and it is answered 401, not 405. *)
Lemma unauthenticated_get_is_401_not_405 :
  method get_request <> "PATCH" /\
  handler signed_out no_text get_request [alice_row] =
    (Returned (Status 401), [alice_row], []) /\
  handler signed_out no_text get_request [alice_row] <>
    (Returned (Status 405), [alice_row], []).
Proof.
  split; [discriminate|].
  assert (handler signed_out no_text get_request [alice_row] =
          (Returned (Status 401), [alice_row], [])) as -> by reflexivity.
  split; [reflexivity | discriminate].
Qed.

Lemma profile_endpoint_401_before_405_witness :
  handler signed_out no_text get_request [alice_row] =
    (Returned (Status 401), [alice_row], []) /\
  handler signed_in_as_alice no_text get_request [alice_row] =
    (Returned (Status 405), [alice_row], []).
Proof.
  split.
  - apply (profile_endpoint_401_before_405 signed_out no_text get_request [alice_row]).
    reflexivity.
  - apply (profile_endpoint_401_before_405 signed_in_as_alice no_text get_request
             [alice_row]) with (user := alice); [reflexivity | discriminate].
Defined.

(** C6 as first stated fails in both directions.  Clearing the company
    changes the stored column and emits nothing; sending the name the user
    already has changes nothing and emits the event; and a PATCH with a
    company for an id the store does not know fails in the update, before
    anything is tracked. *)
Lemma user_updated_event_does_not_follow_change :
  (exists row' : Row,
     handler signed_in_as_alice no_text (patch {[ "company" := Str "" ]}) [alice_row] =
       (Returned (Send row'), [row'], []) /\
     alice_row !! "company" = Some (Str "Acme") /\
     row' !! "company" = Some (Str "")) /\
  handler signed_in_as_alice no_text (patch {[ "name" := Str "Alice" ]}) [alice_row] =
    (Returned (Send alice_row), [alice_row], [UserUpdated "u1"]) /\
  handler signed_in_as_alice no_text (patch {[ "company" := Str "Initech" ]}) [] =
    (Thrown (PrismaKnownRequestError P2025), [], []).
Proof.
  split; [|split].
  - eexists. split; [vm_compute; reflexivity|]. split; reflexivity.
  - vm_compute. reflexivity.
  - apply handler_patch_unknown_user
      with (user := alice) (data := {[ "company" := Str "Initech" ]});
      reflexivity.
Qed.

Lemma user_updated_event_iff_truthy_field_witness :
  (handler signed_in_as_alice no_text
     (patch {[ "company" := Str "Initech" ]}) ([] ++ alice_row :: [])).2 =
  [UserUpdated "u1"].
Proof.
  apply (user_updated_event_iff_truthy_field signed_in_as_alice no_text
           (patch {[ "company" := Str "Initech" ]}) alice
           {[ "company" := Str "Initech" ]} [] [] alice_row
           eq_refl eq_refl eq_refl eq_refl eq_refl) with (s := "Initech");
    [reflexivity | discriminate].
Defined.

Lemma patch_keeps_null_preferences_and_merges_the_rest_witness :
  exists row' : Row,
    (handler signed_in_as_alice no_text
       (patch (<[displayedInAppNotifications := Null]> {[ "image" := Str "a.png" ]}))
       ([] ++ alice_row :: [])).1 = (Returned (Send row'), [] ++ row' :: []) /\
    row' !! displayedInAppNotifications = alice_row !! displayedInAppNotifications /\
    row' !! "image" = Some (Str "a.png").
Proof.
  destruct (patch_keeps_null_preferences_and_merges_the_rest
              signed_in_as_alice no_text
              (patch (<[displayedInAppNotifications := Null]> {[ "image" := Str "a.png" ]}))
              alice
              (<[displayedInAppNotifications := Null]> {[ "image" := Str "a.png" ]})
              [] [] alice_row eq_refl eq_refl eq_refl eq_refl eq_refl)
    as (row' & Hout & Hnull & Hgiven & _).
  exists row'. split; [exact Hout|]. split.
  - apply Hnull; [now left | reflexivity].
  - apply Hgiven; [reflexivity | discriminate | intros [_ H]; discriminate].
Defined.

End UserEndpointExamples.

(** ** The store adapter *)

Module CustomAdapterFacts.
Import JS JSFacts CustomAdapter.

Lemma nonempty_length {A} (l : list A) : l <> [] -> (length l =? 0)%nat = false.
Proof. destruct l; [congruence | reflexivity]. Qed.

Lemma nonempty_positive {A} (l : list A) : l <> [] -> (0 <? length l)%nat = true.
Proof. destruct l; [congruence | reflexivity]. Qed.

Lemma tracked_events_app fx fy :
  tracked_events (fx ++ fy) = tracked_events fx ++ tracked_events fy.
Proof.
  induction fx as [|[] fx IH]; simpl; rewrite ?IH, ?app_assoc; reflexivity.
Qed.

(** The store's delete, spelled out by cases on the key. *)
Lemma verificationToken_delete_spec p key :
  verificationToken_delete p key =
  match verificationTokens p !! key with
  | Some exp =>
      Returned ({| identifier := key.1; token := key.2; expires := exp |},
                {| users := users p; apiTokens := apiTokens p;
                   workspaces := workspaces p; members := members p;
                   invitations := invitations p;
                   workspaceInvitations := workspaceInvitations p;
                   collaborators := collaborators p;
                   verificationTokens := delete key (verificationTokens p) |})
  | None => Thrown (PrismaKnownRequestError P2025)
  end.
Proof. reflexivity. Qed.

(** C2: [useVerificationToken] never throws.  When the row exists it is
    returned and removed, nothing else in the store changes, and a second
    call with the same pair returns null; when no row matches the call
    returns null and leaves the store alone. *)
Theorem useVerificationToken_row_then_null p (key : string * string) :
  (forall e, (useVerificationToken p key).1 <> Thrown e) /\
  (forall exp, verificationTokens p !! key = Some exp ->
     exists p',
       useVerificationToken p key =
         (Returned (Some {| identifier := key.1; token := key.2; expires := exp |}), p') /\
       verificationTokens p' = delete key (verificationTokens p) /\
       (users p', apiTokens p', workspaces p', members p',
        invitations p', workspaceInvitations p', collaborators p') =
       (users p, apiTokens p, workspaces p, members p,
        invitations p, workspaceInvitations p, collaborators p) /\
       useVerificationToken p' key = (Returned None, p')) /\
  (verificationTokens p !! key = None ->
     useVerificationToken p key = (Returned None, p)).
Proof.
  unfold useVerificationToken. rewrite verificationToken_delete_spec.
  split; [|split].
  - intros e. destruct (verificationTokens p !! key); simpl; discriminate.
  - intros exp ->. eexists. split; [reflexivity|].
    split; [reflexivity|]. split; [reflexivity|].
    rewrite verificationToken_delete_spec. cbn [verificationTokens].
    rewrite lookup_delete_eq. reflexivity.
  - intros ->. reflexivity.
Qed.

Section Adapter.

Variable parseWorkspaceDefaultPlan : string -> string.

Abbreviation createUser := (createUser parseWorkspaceDefaultPlan).

(** A payload without a usable email is refused before the store is read. *)
Lemma createUser_missing_email env io p data :
  truthy_str (email data) = false ->
  createUser env io p data = (Thrown MissingEmail, p, []).
Proof.
  unfold CustomAdapter.createUser. destruct (email data) as [e|]; [|reflexivity].
  simpl. destruct (e =? ""); [reflexivity | discriminate].
Qed.

(** With an allow-list configured, the sign-up guard does its work: an
    address that is not on it and has no invitation is refused, and the
    store is left as it was. *)
Lemma createUser_signup_disabled env io p data user_email admins :
  email data = Some user_email -> user_email <> "" ->
  DISABLE_SIGNUP env = true ->
  ADMIN_EMAIL env = Some admins -> ~ In user_email admins ->
  getNewUserInvitations p user_email = ([], []) ->
  createUser env io p data = (Thrown SignupDisabled, p, []).
Proof.
  intros He Hne Hd Ha Hnot Hinv. unfold CustomAdapter.createUser.
  rewrite He. apply String.eqb_neq in Hne. rewrite Hne, Hinv, Hd, Ha.
  assert (forallb (fun a => negb (a =? user_email)) admins = true) as ->;
    [|reflexivity].
  apply forallb_forall. intros a Hin. apply negb_true_iff, String.eqb_neq.
  intros ->. contradiction.
Qed.

(** With no allow-list configured, the guard never fires. *)
Lemma createUser_no_allow_list_never_refuses env io p data :
  ADMIN_EMAIL env = None ->
  (createUser env io p data).1.1 <> Thrown SignupDisabled.
Proof.
  intros Ha. unfold CustomAdapter.createUser, MissingEmail, SignupDisabled.
  destruct (email data) as [e|]; [|simpl; discriminate].
  destruct (e =? ""); [simpl; discriminate|].
  destruct (getNewUserInvitations p e) as [invs wis].
  rewrite Ha, andb_false_r. cbn [andb].
  unfold user_create. destruct (user_taken _ _ _); simpl; discriminate.
Qed.

(** C3: when the email of the payload has a pending workspace invitation,
    [createUser] creates no workspace and tracks no "Workspace created"
    event, whatever the outcome; a failed call leaves the store untouched;
    a successful call adds exactly one membership per invitation, with the
    invited workspace and role, and none besides; and the call does succeed
    when the email is non-empty and neither the id nor the email is taken. *)
Theorem invited_user_joins_and_gets_no_personal_workspace
    env io p data user_email r p' fx :
  email data = Some user_email ->
  (getNewUserInvitations p user_email).2 <> [] ->
  createUser env io p data = (r, p', fx) ->
  workspaces p' = workspaces p /\
  (forall w u, ~ In (WorkspaceCreated w u) (tracked_events fx)) /\
  (forall e, r = Thrown e -> p' = p) /\
  (forall u, r = Returned u ->
     members p' =
     members p ++ map (membership_of (u_id u)) (getNewUserInvitations p user_email).2) /\
  (user_email <> "" ->
   user_taken p (or_else (id data) (createId io)) user_email = false ->
   exists u, r = Returned u /\ u_email u = user_email).
Proof.
  intros He Hwis. unfold CustomAdapter.createUser. rewrite He.
  destruct (String.eqb_spec user_email "") as [->|Hne].
  { intros [= <- <- <-]. repeat split; try discriminate; auto. tauto. }
  destruct (getNewUserInvitations p user_email) as [invs wis] eqn:Einv.
  cbn [snd] in Hwis |- *.
  rewrite (nonempty_length wis Hwis), (nonempty_positive wis Hwis), andb_false_r.
  unfold user_create. cbn [u_id u_email].
  destruct (user_taken p _ user_email) eqn:Etaken.
  { intros [= <- <- <-]. repeat split; try discriminate; auto. }
  cbn [created_row created_workspaces map last u_id u_email].
  intros [= <- <- <-]. repeat split.
  - destruct (0 <? length invs)%nat; cbn [joinWorkspaces workspaces
      convertInvitationsToCollaborations]; apply app_nil_r.
  - intros w u. rewrite tracked_events_app. cbn [tracked_events app].
    intros Hin. apply in_app_or in Hin as [Hin|Hin].
    + destruct (USER_CREATED_WEBHOOK_URL env) as [url|]; [|contradiction].
      destruct (url =? ""); [contradiction|].
      destruct (webhook_ok io); simpl in Hin; tauto.
    + destruct Hin as [Hin|[]]. discriminate.
  - discriminate.
  - intros u [= <-]. cbn [u_id].
    destruct (0 <? length invs)%nat; cbn [joinWorkspaces members
      convertInvitationsToCollaborations]; now rewrite app_nil_r.
  - intros _ _. eexists. split; reflexivity.
Qed.

(** The other branch, for comparison: with no workspace invitation pending,
    a successful call creates one workspace and makes the user its
    administrator. *)
Lemma uninvited_user_gets_personal_workspace env io p data user_email u p' fx :
  email data = Some user_email ->
  (getNewUserInvitations p user_email).2 = [] ->
  createUser env io p data = (Returned u, p', fx) ->
  exists w,
    workspaces p' = workspaces p ++ [w] /\ w_id w = workspace_cuid io /\
    members p' = members p ++
      [{| m_userId := u_id u; m_workspaceId := w_id w; m_role := WorkspaceRole_ADMIN |}].
Proof.
  intros He Hwis. unfold CustomAdapter.createUser. rewrite He.
  destruct (user_email =? ""); [discriminate|].
  destruct (getNewUserInvitations p user_email) as [invs wis] eqn:Einv.
  cbn [snd] in Hwis. subst wis.
  set (has_invs := (0 <? length invs)%nat).
  change (0 <? length (@nil WorkspaceInvitation))%nat with false. cbv iota.
  destruct (_ && _ && _ && _); [discriminate|].
  unfold user_create. cbn [u_id u_email].
  destruct (user_taken p _ user_email); [discriminate|].
  cbn [created_row created_workspaces map last u_id u_email].
  intros [= <- <- <-]. eexists. split; [|split].
  - destruct has_invs; reflexivity.
  - reflexivity.
  - destruct has_invs; reflexivity.
Qed.

End Adapter.

End CustomAdapterFacts.

(** ** The store adapter on sample calls *)

Module CustomAdapterExamples.
Import JS CustomAdapter CustomAdapterFacts Fixtures.

(** C1 does not hold of the code.  Sign-up is switched off, no allow-list
    is configured (so the address is on none) and the address has no
    invitation: [createUser] creates the user, with a workspace of its own. *)
Lemma createUser_signup_off_without_allow_list_creates_user :
  DISABLE_SIGNUP signup_off_no_admins = true /\
  ADMIN_EMAIL signup_off_no_admins = None /\
  getNewUserInvitations sample_db "new@example.org" = ([], []) /\
  exists row p',
    createUser free_plan signup_off_no_admins sample_io sample_db
      (payload "new@example.org") =
    (Returned row, p',
     [TrackEvents [WorkspaceCreated "w2" "cuid1"; UserCreated "cuid1"]]) /\
    u_email row = "new@example.org" /\
    users p' = [row] /\
    length (workspaces p') = S (length (workspaces sample_db)).
Proof.
  repeat split; try reflexivity.
  do 2 eexists. split; [vm_compute; reflexivity|]. repeat split.
Qed.

(** The same call once an allow-list without the address is configured. *)
Lemma createUser_signup_off_with_allow_list_refuses :
  createUser free_plan signup_off_one_admin sample_io sample_db
    (payload "new@example.org") =
  (Thrown SignupDisabled, sample_db, []).
Proof.
  apply createUser_signup_disabled
    with (user_email := "new@example.org") (admins := ["root@example.org"]);
    try reflexivity; [discriminate|].
  intros [H|[]]. discriminate.
Qed.

Lemma useVerificationToken_row_then_null_witness :
  exists p',
    useVerificationToken sample_db ("bob@example.org", "424242") =
      (Returned (Some {| identifier := "bob@example.org"; token := "424242";
                         expires := 1700000000 |}), p') /\
    useVerificationToken p' ("bob@example.org", "424242") = (Returned None, p').
Proof.
  destruct (useVerificationToken_row_then_null sample_db
              ("bob@example.org", "424242")) as (_ & Hrow & _).
  destruct (Hrow 1700000000%Z ltac:(vm_compute; reflexivity))
    as (p' & Hfirst & _ & _ & Hsecond).
  exists p'. split; assumption.
Defined.

Lemma invited_user_joins_and_gets_no_personal_workspace_witness :
  exists u p' fx,
    createUser free_plan signup_off_one_admin sample_io sample_db
      (payload "guest@example.org") = (Returned u, p', fx) /\
    workspaces p' = workspaces sample_db /\
    members p' =
      [{| m_userId := u_id u; m_workspaceId := "w1"; m_role := "MEMBER" |}].
Proof.
  destruct (createUser free_plan signup_off_one_admin sample_io sample_db
              (payload "guest@example.org")) as [[r p'] fx] eqn:E.
  destruct (invited_user_joins_and_gets_no_personal_workspace
              free_plan signup_off_one_admin sample_io sample_db
              (payload "guest@example.org") "guest@example.org" r p' fx
              eq_refl ltac:(discriminate) E)
    as (Hws & _ & _ & Hjoin & Hok).
  destruct (Hok ltac:(discriminate) eq_refl) as (u & -> & _).
  exists u, p', fx. split; [reflexivity|]. split; [exact Hws|].
  exact (Hjoin u eq_refl).
Defined.

End CustomAdapterExamples.

(** ** The authentication route *)

Module AuthRouteFacts.
Import JS JSFacts AuthRoute.

Lemma checkHasGroups_iff userGroups requiredGroups :
  checkHasGroups userGroups requiredGroups = true <->
  exists g, In g userGroups /\ In g requiredGroups.
Proof.
  unfold checkHasGroups. rewrite existsb_exists.
  split; intros (g & Hu & Hr); exists g; split; try assumption;
    now apply includes_In.
Qed.

Lemma getRequiredGroups_unconfigured env provider :
  provider <> "gitlab" \/ GITLAB_REQUIRED_GROUPS env = None ->
  getRequiredGroups env provider = [].
Proof.
  unfold getRequiredGroups. intros [Hp|Hg].
  - apply String.eqb_neq in Hp. now rewrite Hp.
  - rewrite Hg. now destruct (provider =? "gitlab").
Qed.

(** Fuel only bounds the number of pages followed: once a listing ends,
    more fuel gives the same answer. *)
Lemma getGitlabGroups_fuel_mono fuel w tok page r :
  getGitlabGroups fuel w tok page = Some r ->
  forall more, getGitlabGroups (fuel + more) w tok page = Some r.
Proof.
  revert page r. induction fuel as [|fuel IH]; intros page r; [discriminate|].
  intros H more. cbn [Nat.add getGitlabGroups] in *.
  destruct (gitlab_groups w tok page) as [res|]; [|exact H].
  destruct (next_page res) as [n|]; [|exact H].
  destruct (n =? 0)%Z; [exact H|].
  destruct (getGitlabGroups fuel w tok n) as [r'|] eqn:E; [|discriminate].
  now rewrite (IH _ _ E more).
Qed.

Lemma getUserGroups_fuel_mono fuel w account r :
  getUserGroups fuel w account = Some r ->
  forall more, getUserGroups (fuel + more) w account = Some r.
Proof.
  unfold getUserGroups. destruct (provider account =? "gitlab"); [|auto].
  destruct (getGitlabGroups fuel w (access_token account) 1) as [r'|] eqn:E;
    [|discriminate].
  intros H more. now rewrite (getGitlabGroups_fuel_mono _ _ _ _ _ E more).
Qed.

(** A listing of [n] pages that ends is read in full with [n] requests. *)
Lemma getGitlabGroups_single_page fuel w tok page res :
  gitlab_groups w tok page = Some res ->
  next_page res = None \/ next_page res = Some 0%Z ->
  getGitlabGroups (S fuel) w tok page = Some (Returned (page_groups res)).
Proof.
  intros Hres Hnext. cbn [getGitlabGroups]. rewrite Hres.
  destruct Hnext as [-> | ->]; reflexivity.
Qed.

Lemma positive_length {A} (l : list A) : l <> [] -> (0 <? length l)%nat = true.
Proof. destruct l; [congruence | reflexivity]. Qed.

(** A tagged attempt ends at the first line of the callback. *)
Lemma signIn_rate_limited env fuel w account user :
  signIn (Some rate_limited) env fuel w account user = Some (Thrown RateLimited, []).
Proof. reflexivity. Qed.

(** For a user the store already knows, the two sign-up stages do not
    apply, and what remains is the group stage and the final one. *)
Lemma signIn_returning_user env fuel w account user :
  isDefined (createdAt user) = true ->
  signIn None env fuel w (Some account) user =
  if (0 <? length (getRequiredGroups env (provider account)))%nat then
    match getUserGroups fuel w account with
    | Some (Returned userGroups) =>
        Some (Returned (checkHasGroups userGroups
                          (getRequiredGroups env (provider account))), [])
    | Some (Thrown e) => Some (Thrown e, [])
    | None => None
    end
  else Some (Returned true, [UserLoggedIn (user_id user)]).
Proof.
  intros Hdef. unfold signIn. rewrite Hdef. cbn [negb andb].
  rewrite andb_false_r. cbn [andb].
  destruct (user_email user); reflexivity.
Qed.

(** Without a required group, a returning user is let in and the log-in is
    tracked. *)
Lemma signIn_returning_user_unrestricted env fuel w account user :
  isDefined (createdAt user) = true ->
  getRequiredGroups env (provider account) = [] ->
  signIn None env fuel w (Some account) user =
  Some (Returned true, [UserLoggedIn (user_id user)]).
Proof.
  intros Hdef Hrg. rewrite (signIn_returning_user _ _ _ _ _ Hdef), Hrg.
  reflexivity.
Qed.

(** With a required group, the group stage returns on its own: nothing is
    tracked on that path, allowed or not. *)
Lemma signIn_group_path_tracks_nothing env fuel w account user r events :
  getRequiredGroups env (provider account) <> [] ->
  signIn None env fuel w (Some account) user = Some (r, events) ->
  events = [].
Proof.
  intros Hrg. unfold signIn. cbv zeta.
  rewrite (positive_length _ Hrg).
  repeat match goal with
         | |- context [match ?d with Continue => _ | Exit _ => _ end] =>
             destruct d
         end; try (intros [= <- <-]; reflexivity).
  destruct (getUserGroups fuel w account) as [[ug|e]|];
    intros [= <- <-] || discriminate; reflexivity.
Qed.

(** C7: the group check is the exact, case-sensitive intersection test; a
    provider without a configured list has no required group; with no
    required group the callback never looks at the provider's groups; and
    with one, the attempts it allows are exactly those that the same
    configuration without group requirement allows and whose fetched groups
    meet the list, every other outcome being the same. *)
Theorem group_check_is_exact_intersection :
  (forall userGroups requiredGroups,
     checkHasGroups userGroups requiredGroups = true <->
     exists g, In g userGroups /\ In g requiredGroups) /\
  checkHasGroups ["a"; "b"] ["b"; "c"] = true /\
  checkHasGroups ["x"] ["b"; "c"] = false /\
  checkHasGroups ["B"] ["b"; "c"] = false /\
  (forall env provider,
     provider <> "gitlab" \/ GITLAB_REQUIRED_GROUPS env = None ->
     getRequiredGroups env provider = []) /\
  (forall restricted env fuel fuel' w w' account user,
     getRequiredGroups env (provider account) = [] ->
     prisma w' = prisma w ->
     disposable_blocklist w' = disposable_blocklist w ->
     signIn restricted env fuel' w' (Some account) user =
     signIn restricted env fuel w (Some account) user) /\
  (forall restricted env env0 fuel w account user userGroups,
     getRequiredGroups env (provider account) <> [] ->
     getUserGroups fuel w account = Some (Returned userGroups) ->
     DISABLE_SIGNUP env0 = DISABLE_SIGNUP env ->
     ADMIN_EMAIL env0 = ADMIN_EMAIL env ->
     REJECT_DISPOSABLE_EMAILS env0 = REJECT_DISPOSABLE_EMAILS env ->
     getRequiredGroups env0 (provider account) = [] ->
     signIn restricted env fuel w (Some account) user =
     match signIn restricted env0 fuel w (Some account) user with
     | Some (Returned true, _) =>
         Some (Returned (checkHasGroups userGroups
                           (getRequiredGroups env (provider account))), [])
     | other => other
     end).
Proof.
  split; [exact checkHasGroups_iff|].
  do 3 (split; [reflexivity|]).
  split; [exact getRequiredGroups_unconfigured|].
  split.
  - intros restricted env fuel fuel' w w' account user Hrg Hp Hb.
    unfold signIn. destruct restricted as [[]|]; [reflexivity|].
    rewrite Hp, Hb, Hrg. reflexivity.
  - intros restricted env env0 fuel w account user ug Hrg Hug Hd Ha Hr Hrg0.
    unfold signIn. destruct restricted as [[]|]; [reflexivity|].
    rewrite Hd, Ha, Hr, Hrg0, Hug, (positive_length _ Hrg). cbv zeta.
    destruct (user_email user) as [e|]; [|reflexivity].
    destruct (negb (isDefined (createdAt user)) && negb (e =? "") && _ && _).
    + destruct (disposable_blocklist w) as [data|]; [|reflexivity].
      destruct (nth_error _ 1) as [domain|].
      * destruct (includes _ domain); [reflexivity|].
        destruct (_ && _ && _ && _); [|reflexivity].
        destruct (CustomAdapter.getNewUserInvitations _ _) as [invs wis].
        destruct (_ && _); reflexivity.
      * destruct (_ && _ && _ && _); [|reflexivity].
        destruct (CustomAdapter.getNewUserInvitations _ _) as [invs wis].
        destruct (_ && _); reflexivity.
    + destruct (_ && _ && _ && _); [|reflexivity].
      destruct (CustomAdapter.getNewUserInvitations _ _) as [invs wis].
      destruct (_ && _); reflexivity.
Qed.

(** C9, as amended: for an attempt that is not tagged rate-limited, with an
    account payload, by a new user without an email, on a provider without
    required groups, neither the disposable-email check nor the sign-up
    check applies: the store and the block-list are not consulted, the
    attempt is allowed and nothing is tracked, whatever the switches. *)
Theorem new_user_without_email_is_let_through env fuel w account user :
  createdAt user = None ->
  truthy_str (user_email user) = false ->
  getRequiredGroups env (provider account) = [] ->
  signIn None env fuel w (Some account) user = Some (Returned true, []) /\
  forall fuel' w',
    signIn None env fuel' w' (Some account) user =
    signIn None env fuel w (Some account) user.
Proof.
  intros Hnew Hmail Hrg.
  assert (forall f x, signIn None env f x (Some account) user
                      = Some (Returned true, [])) as H.
  { intros f x. unfold signIn. rewrite Hnew, Hrg. cbn [isDefined negb].
    destruct (user_email user) as [e|]; [|reflexivity].
    simpl in Hmail. apply negb_false_iff in Hmail. rewrite Hmail.
    cbn [negb andb]. rewrite !andb_false_r. reflexivity. }
  split; [apply H|]. intros f x. now rewrite !H.
Qed.

Section Handler.

Variable getIp : NextApiRequest -> option string.
Variable LimiterState : Type.
Variable slidingWindow : nat -> nat -> string -> LimiterState -> bool * LimiterState.

Abbreviation handler := (handler getIp LimiterState slidingWindow).

(** C4: with a rate limiter configured, a POST to the email sign-in route
    from an address for which the limiter of one request per sixty seconds
    answers that the limit is exceeded is handed to the authentication
    library with the rate-limited tag, and the sign-in callback of those
    options throws the rate-limit error on every attempt: it never returns
    (neither a deny nor an allow) and the error is not the one of disabled
    sign-up. *)
Theorem exceeded_limit_surfaces_as_rate_limit_error
    env req st st' redis_url u ip :
  REDIS_URL env = Some redis_url -> redis_url <> "" ->
  method req = "POST" ->
  url req = Some u -> String.prefix "/api/auth/signin/email" u = true ->
  getIp req = Some ip -> ip <> "" ->
  slidingWindow 1 60 ip st = (false, st') ->
  exists options,
    handler env req st = (NextAuth options, st') /\
    options = getAuthOptions (Some rate_limited) /\
    (forall env' fuel w account user,
       callbacks_signIn options env' fuel w account user =
       Some (Thrown RateLimited, [])) /\
    (forall env' fuel w account user b events,
       callbacks_signIn options env' fuel w account user <>
       Some (Returned b, events)) /\
    RateLimited <> SignUpDisabled.
Proof.
  intros Hredis Hne Hm Hu Hprefix Hip Hipne Hlimit.
  exists (getAuthOptions (Some rate_limited)).
  split; [|split; [reflexivity|split; [reflexivity|split; [|discriminate]]]].
  - unfold AuthRoute.handler, emailSignInRateLimiter.
    apply String.eqb_neq in Hne, Hipne.
    rewrite Hredis, Hne, Hm, Hu, Hprefix, Hip, Hipne, Hlimit. reflexivity.
  - intros. discriminate.
Qed.

End Handler.

End AuthRouteFacts.

(** ** The authentication route on sample attempts *)

Module AuthRouteExamples.
Import JS AuthRoute AuthRouteFacts Fixtures.

(** C5 does not hold of the code.  A returning user signs in through the
    provider that has required groups, and the groups fetched for the user
    meet the requirement: the attempt is allowed and no event is tracked.
    The same user through a provider without required groups is tracked. *)
Lemma returning_user_with_required_groups_is_not_tracked :
  isDefined (createdAt returning_user) = true /\
  getRequiredGroups locked_down (provider gitlab_account) = ["b"; "c"] /\
  getUserGroups 2 sample_world gitlab_account = Some (Returned ["a"; "b"]) /\
  checkHasGroups ["a"; "b"] ["b"; "c"] = true /\
  signIn None locked_down 2 sample_world (Some gitlab_account) returning_user =
    Some (Returned true, []) /\
  signIn None locked_down 2 sample_world (Some github_account) returning_user =
    Some (Returned true, [UserLoggedIn "u1"]).
Proof. repeat split. Qed.

Lemma group_check_is_exact_intersection_witness :
  signIn None locked_down 2 sample_world (Some gitlab_account) returning_user =
  Some (Returned (checkHasGroups ["a"; "b"] ["b"; "c"]), []).
Proof.
  destruct group_check_is_exact_intersection as (_ & _ & _ & _ & _ & _ & H).
  exact (H None locked_down locked_down_any_group 2 sample_world gitlab_account
           returning_user ["a"; "b"]
           ltac:(discriminate) eq_refl eq_refl eq_refl eq_refl eq_refl).
Defined.

(** C9 as first stated fails: the attempt below has an account payload, a
    new user without an email and a provider without required groups, and
    it is not allowed, because it carries the rate-limited tag. *)
Lemma tagged_new_user_without_email_is_thrown :
  createdAt new_user_without_email = None /\
  user_email new_user_without_email = None /\
  getRequiredGroups locked_down (provider github_account) = [] /\
  signIn (Some rate_limited) locked_down 2 sample_world (Some github_account)
    new_user_without_email = Some (Thrown RateLimited, []).
Proof. repeat split. Qed.

Lemma new_user_without_email_is_let_through_witness :
  DISABLE_SIGNUP locked_down = true /\
  REJECT_DISPOSABLE_EMAILS locked_down = true /\
  signIn None locked_down 2 sample_world (Some github_account)
    new_user_without_email = Some (Returned true, []).
Proof.
  split; [reflexivity|]. split; [reflexivity|].
  apply (new_user_without_email_is_let_through locked_down 2 sample_world
           github_account new_user_without_email eq_refl eq_refl eq_refl).
Defined.

(** The sample address was let through thirty seconds ago. *)
Lemma exceeded_limit_surfaces_as_rate_limit_error_witness :
  exists options,
    handler ip_of_sample _ log_limiter locked_down signin_email_post
      ([("203.0.113.7", 100)], 130) =
      (NextAuth options, ([("203.0.113.7", 100)], 130)) /\
    callbacks_signIn options locked_down 2 sample_world (Some github_account)
      returning_user = Some (Thrown RateLimited, []).
Proof.
  destruct (exceeded_limit_surfaces_as_rate_limit_error
              ip_of_sample _ log_limiter locked_down signin_email_post
              ([("203.0.113.7", 100)], 130) ([("203.0.113.7", 100)], 130)
              "redis://cache:6379" "/api/auth/signin/email?callbackUrl=%2F"
              "203.0.113.7"
              eq_refl ltac:(discriminate) eq_refl eq_refl eq_refl eq_refl
              ltac:(discriminate) eq_refl)
    as (options & Hhandler & _ & Hthrows & _).
  exists options. split; [exact Hhandler | apply Hthrows].
Defined.

End AuthRouteExamples.

(** * Further properties

    The rest of the three files: what [createUser] leaves behind, the
    verification-token round trip, the stages of [signIn] one by one, the
    group listing, the route handler's use of the limiter, the credentials
    provider, and the frame of the profile update. *)

(** ** Splitting and joining strings *)

Module JSSplitFacts.
Import JS.

Lemma rev_app_rev_app a c d :
  String.rev_app (String.rev_app a c) d = String.rev_app c (a +:+ d).
Proof.
  revert c d. induction a as [|x a IH]; intros c d; [reflexivity|].
  cbn [String.rev_app]. rewrite IH. reflexivity.
Qed.

Lemma app_empty_r (a : string) : a +:+ "" = a.
Proof.
  induction a as [|x a IH]; [reflexivity|].
  change (String x (a +:+ "") = String x a). now f_equal.
Qed.

Lemma rev_rev_app a : String.rev (String.rev_app a "") = a.
Proof.
  unfold String.rev. rewrite rev_app_rev_app. cbn [String.rev_app].
  apply app_empty_r.
Qed.

Lemma split_from_whole sep cur a :
  occurs sep a = false ->
  split_from sep cur a = [String.rev (String.rev_app a cur)].
Proof.
  revert cur. induction a as [|c a IH]; intros cur H; [reflexivity|].
  cbn [occurs] in H. apply orb_false_iff in H as [Hc Ha].
  cbn [split_from String.rev_app]. rewrite Hc. now apply IH.
Qed.

Lemma split_from_first sep cur a b :
  occurs sep a = false ->
  split_from sep cur (a +:+ String sep b) =
  String.rev (String.rev_app a cur) :: split_from sep "" b.
Proof.
  revert cur. induction a as [|c a IH]; intros cur H.
  - change ("" +:+ String sep b) with (String sep b).
    cbn [split_from String.rev_app]. now rewrite Ascii.eqb_refl.
  - cbn [occurs] in H. apply orb_false_iff in H as [Hc Ha].
    change (String c a +:+ String sep b) with (String c (a +:+ String sep b)).
    cbn [split_from String.rev_app]. rewrite Hc. now apply IH.
Qed.

(** A string without the separator is one piece. *)
Lemma split_whole sep a : occurs sep a = false -> split sep a = [a].
Proof.
  intros H. unfold split. rewrite (split_from_whole _ _ _ H).
  now rewrite rev_rev_app.
Qed.

(** The first piece ends at the first separator. *)
Lemma split_first sep a b :
  occurs sep a = false -> split sep (a +:+ String sep b) = a :: split sep b.
Proof.
  intros H. unfold split. rewrite (split_from_first _ _ _ _ H).
  now rewrite rev_rev_app.
Qed.

(** Splitting undoes joining, for pieces that do not hold the separator. *)
Lemma split_join sep (xs : list string) :
  xs <> [] -> Forall (fun x => occurs sep x = false) xs ->
  split sep (join sep xs) = xs.
Proof.
  induction xs as [|x [|y rest] IH]; intros Hne Hall; [congruence| |].
  - cbn [join]. apply split_whole. now inversion Hall.
  - change (join sep (x :: y :: rest)) with (x +:+ String sep (join sep (y :: rest))).
    inversion Hall as [|? ? Hx Hrest]; subst.
    rewrite (split_first _ _ _ Hx), IH; [reflexivity | discriminate | assumption].
Qed.

(** The text after the first at-sign, up to the next one. *)
Lemma domain_of_address (local domain : string) :
  occurs "@" local = false -> occurs "@" domain = false ->
  nth_error (split "@" (local +:+ String "@" domain)) 1 = Some domain.
Proof.
  intros Hl Hd. rewrite (split_first _ _ _ Hl), (split_whole _ _ Hd). reflexivity.
Qed.

End JSSplitFacts.

(** ** What [createUser] leaves behind *)

Module CustomAdapterMore.
Import JS JSFacts CustomAdapter CustomAdapterFacts.

Lemma find_app_fresh {A} (f : A -> bool) (l : list A) (x : A) :
  existsb f l = false -> f x = true -> List.find f (l ++ [x]) = Some x.
Proof.
  induction l as [|y l IH]; simpl; intros Hl Hx; [now rewrite Hx|].
  apply orb_false_iff in Hl as [Hy Hl]. rewrite Hy. now apply IH.
Qed.

Lemma find_app_other {A} (f : A -> bool) (l : list A) (x : A) :
  f x = false -> List.find f (l ++ [x]) = List.find f l.
Proof.
  induction l as [|y l IH]; simpl; intros Hx; [now rewrite Hx|].
  destruct (f y); [reflexivity | now apply IH].
Qed.

Lemma user_taken_split p uid uemail :
  user_taken p uid uemail = false ->
  existsb (fun u => u_id u =? uid) (users p) = false /\
  existsb (fun u => u_email u =? uemail) (users p) = false.
Proof.
  unfold user_taken. induction (users p) as [|u l IH]; simpl; [tauto|].
  intros H. apply orb_false_iff in H as [Hu Hl].
  apply orb_false_iff in Hu as [-> ->]. simpl. now apply IH.
Qed.

Section Adapter.

Variable parseWorkspaceDefaultPlan : string -> string.

Abbreviation createUser := (createUser parseWorkspaceDefaultPlan).

(** The shape of a successful call, in one place: the row, the stores in
    between and the effects. *)
Lemma createUser_returned env io p data u p' fx :
  createUser env io p data = (Returned u, p', fx) ->
  exists user_email invs wis,
    email data = Some user_email /\ user_email <> "" /\
    getNewUserInvitations p user_email = (invs, wis) /\
    u = {| u_id := or_else (id data) (createId io);
           u_email := user_email;
           u_name := name data;
           u_image := image data;
           u_emailVerified := emailVerified data;
           u_onboardingCategories := [] |} /\
    user_taken p (u_id u) user_email = false /\
    users p' = users p ++ [u] /\
    apiTokens p' = apiTokens p ++
      [{| t_ownerId := u_id u; t_name := "Default"; t_token := generateId io |}] /\
    verificationTokens p' = verificationTokens p /\
    tracked_events fx =
      (if (0 <? length wis)%nat then []
       else if workspace_cuid io =? "" then []
            else [WorkspaceCreated (workspace_cuid io) (u_id u)])
      ++ [UserCreated (u_id u)] /\
    fx = match USER_CREATED_WEBHOOK_URL env with
         | Some url =>
             if url =? "" then []
             else WebhookPost url user_email
                  :: (if webhook_ok io then []
                      else [ConsoleError "Failed to call user created webhook"])
         | None => []
         end ++ [TrackEvents (tracked_events fx)].
Proof.
  unfold CustomAdapter.createUser.
  destruct (email data) as [e|]; [|discriminate].
  destruct (String.eqb_spec e "") as [->|Hne]; [discriminate|].
  destruct (getNewUserInvitations p e) as [invs wis] eqn:Einv.
  destruct (_ && _ && _ && _); [discriminate|].
  unfold user_create. cbn [u_id u_email].
  destruct (user_taken p _ e) eqn:Etaken; [discriminate|].
  cbn [created_row created_workspaces u_id u_email].
  intros [= <- <- <-]. exists e, invs, wis.
  split; [reflexivity|]. split; [assumption|]. split; [exact Einv|].
  split; [reflexivity|]. split; [exact Etaken|].
  split; [destruct (0 <? length wis)%nat, (0 <? length invs)%nat; reflexivity|].
  split; [destruct (0 <? length wis)%nat, (0 <? length invs)%nat; reflexivity|].
  split; [destruct (0 <? length wis)%nat, (0 <? length invs)%nat; reflexivity|].
  match goal with |- tracked_events (?w ++ _) = _ /\ _ =>
    assert (tracked_events w = []) as Hweb
  end.
  { destruct (USER_CREATED_WEBHOOK_URL env) as [url|]; [|reflexivity].
    destruct (url =? ""); [reflexivity|]. destruct (webhook_ok io); reflexivity. }
  rewrite tracked_events_app, Hweb. cbn [tracked_events app]. rewrite app_nil_r.
  split; destruct (0 <? length wis)%nat; reflexivity.
Qed.


(** X2: the webhook is best effort.  Whether the request goes through
    changes neither the result, nor the store, nor the events tracked, nor
    the request made; a failure only adds a line to the log. *)
Theorem createUser_webhook_is_best_effort env io io' p data :
  createId io' = createId io ->
  generateId io' = generateId io ->
  workspace_cuid io' = workspace_cuid io ->
  (createUser env io' p data).1 = (createUser env io p data).1 /\
  tracked_events (createUser env io' p data).2 =
    tracked_events (createUser env io p data).2 /\
  (forall url a, In (WebhookPost url a) (createUser env io' p data).2 <->
                 In (WebhookPost url a) (createUser env io p data).2) /\
  (forall m, In (ConsoleError m) (createUser env io p data).2 ->
             webhook_ok io = false /\ exists url, USER_CREATED_WEBHOOK_URL env = Some url).
Proof.
  destruct io as [c g w ok], io' as [c' g' w' ok']. cbn.
  intros -> -> ->. unfold CustomAdapter.createUser.
  destruct (email data) as [a|]; [|cbn; tauto].
  destruct (a =? ""); [cbn; tauto|].
  destruct (getNewUserInvitations p a) as [invs wis].
  destruct (_ && _ && _ && _); [cbn; tauto|].
  unfold user_create. cbn [createId generateId workspace_cuid webhook_ok u_id u_email].
  destruct (user_taken p _ _); [cbn; tauto|].
  cbn [fst snd created_row created_workspaces u_id u_email].
  split; [reflexivity|].
  rewrite !tracked_events_app.
  destruct (USER_CREATED_WEBHOOK_URL env) as [url|];
    [destruct (url =? "")|]; cbn [app tracked_events].
  - split; [reflexivity|]. split; [tauto|]. intros m [H|[]]. discriminate.
  - split; [destruct ok, ok'; reflexivity|]. split.
    + intros u b. destruct ok, ok'; simpl; intuition congruence.
    + intros m. destruct ok; simpl; [intuition congruence|].
      intros _. split; [reflexivity | now exists url].
  - split; [reflexivity|]. split; [tauto|]. intros m [H|[]]. discriminate.
Qed.


(** X4: the user a successful call returns is the one the store then
    answers for its id and for its email; no user had either before; every
    other lookup is as it was. *)
Theorem createUser_then_getUser env io p data u p' fx :
  createUser env io p data = (Returned u, p', fx) ->
  getUser p' (u_id u) = Some u /\
  getUserByEmail p' (u_email u) = Some u /\
  getUser p (u_id u) = None /\
  getUserByEmail p (u_email u) = None /\
  (forall i, i <> u_id u -> getUser p' i = getUser p i) /\
  (forall a, a <> u_email u -> getUserByEmail p' a = getUserByEmail p a).
Proof.
  intros H. apply createUser_returned in H
    as (a & invs & wis & _ & _ & _ & Hu & Htaken & Husers & _).
  assert (u_email u = a) as Ha by now rewrite Hu.
  rewrite <- Ha in Htaken. apply user_taken_split in Htaken as [Hid Hemail].
  unfold getUser, getUserByEmail. rewrite Husers.
  split; [apply find_app_fresh; [exact Hid | apply String.eqb_refl]|].
  split; [apply find_app_fresh; [exact Hemail | apply String.eqb_refl]|].
  split.
  { destruct (List.find _ (users p)) as [x|] eqn:E; [|reflexivity].
    apply find_some in E as [Hin Hx].
    assert (existsb (fun u0 => u_id u0 =? u_id u) (users p) = true) as Hex
      by (apply existsb_exists; eauto).
    congruence. }
  split.
  { destruct (List.find _ (users p)) as [x|] eqn:E; [|reflexivity].
    apply find_some in E as [Hin Hx].
    assert (existsb (fun u0 => u_email u0 =? u_email u) (users p) = true) as Hex
      by (apply existsb_exists; eauto).
    congruence. }
  split; intros k Hk; apply find_app_other; apply String.eqb_neq; congruence.
Qed.

(** X5: a successful call inserts one user row, with the payload's
    email, name, image and verification date, the payload's id when it has
    a non-empty one and a generated id otherwise, and no onboarding
    category; and one API token named "Default" for that user, holding the
    generated secret.  Verification tokens are not touched. *)
Theorem createUser_inserts_user_and_default_token env io p data u p' fx :
  createUser env io p data = (Returned u, p', fx) ->
  users p' = users p ++ [u] /\
  apiTokens p' = apiTokens p ++
    [{| t_ownerId := u_id u; t_name := "Default"; t_token := generateId io |}] /\
  verificationTokens p' = verificationTokens p /\
  email data = Some (u_email u) /\ u_email u <> "" /\
  u_id u = match id data with
           | Some i => if i =? "" then createId io else i
           | None => createId io
           end /\
  (u_name u, u_image u, u_emailVerified u, u_onboardingCategories u) =
  (name data, image data, emailVerified data, []).
Proof.
  intros H. apply createUser_returned in H
    as (a & invs & wis & He & Hne & _ & -> & _ & Husers & Htok & Hvt & _).
  cbn [u_id u_email u_name u_image u_emailVerified u_onboardingCategories] in *.
  repeat split; try assumption.
Qed.

End Adapter.

(** X6: a verification token created for a pair that is not in use is
    returned, as created, by the first [useVerificationToken] of the pair,
    which also puts the token table back as it was; a second use returns
    null, and a second creation of the pair while it is in use fails
    without touching the store. *)
Theorem created_token_is_used_once p (data : VerificationToken) :
  verificationTokens p !! (identifier data, token data) = None ->
  exists p1 p2,
    createVerificationToken p data = (Returned data, p1) /\
    createVerificationToken p1 data = (Thrown (PrismaKnownRequestError P2002), p1) /\
    useVerificationToken p1 (identifier data, token data) = (Returned (Some data), p2) /\
    verificationTokens p2 = verificationTokens p /\
    useVerificationToken p2 (identifier data, token data) = (Returned None, p2).
Proof.
  intros Hfree. destruct data as [i t x]. cbn [identifier token] in *.
  unfold createVerificationToken, verificationToken_create.
  cbn [identifier token expires]. rewrite Hfree.
  do 2 eexists. split; [reflexivity|].
  cbn [verificationTokens]. rewrite lookup_insert_eq.
  split; [reflexivity|].
  unfold useVerificationToken, verificationToken_delete.
  cbn [verificationTokens fst snd]. rewrite lookup_insert_eq.
  split; [reflexivity|]. cbn [verificationTokens].
  rewrite delete_insert_eq, lookup_delete_eq.
  split; [now apply delete_id | reflexivity].
Qed.

End CustomAdapterMore.

(** ** The stages of the sign-in callback *)

Module AuthRouteMore.
Import JS JSFacts JSSplitFacts AuthRoute AuthRouteFacts.

Lemma zero_length {A} (l : list A) : (0 <? length l)%nat = false -> l = [].
Proof. destruct l; [reflexivity | discriminate]. Qed.

Lemma address_not_empty (local domain : string) :
  (local +:+ String "@" domain =? "") = false.
Proof. destruct local; reflexivity. Qed.

(** How the allow-list test of the callback reads, on a list. *)
Lemma not_listed (admins : list string) e :
  ~ In e admins -> includes admins e = false.
Proof.
  intros H. destruct (includes admins e) eqn:E; [|reflexivity].
  apply includes_In in E. contradiction.
Qed.

(** X7: the callback tracks at most one event, "User logged in" for the
    user's id, and only on an attempt it allows, for a returning user, with
    no rate-limit tag, an account payload and a provider without required
    groups; an attempt that is denied or thrown tracks nothing. *)
Theorem signIn_tracks_only_allowed_returning_users
    restricted env fuel w account user r events :
  signIn restricted env fuel w account user = Some (r, events) ->
  events = [] \/
  (events = [UserLoggedIn (user_id user)] /\
   r = Returned true /\
   isDefined (createdAt user) = true /\
   restricted = None /\
   exists a, account = Some a /\ getRequiredGroups env (provider a) = []).
Proof.
  unfold signIn. destruct restricted as [[]|]; [intros [= <- <-]; now left|].
  destruct account as [a|]; [|intros [= <- <-]; now left].
  cbv zeta.
  repeat match goal with
         | |- context [match ?d with Continue => _ | Exit _ => _ end] =>
             destruct d
         end; try (intros [= <- <-]; now left).
  destruct (0 <? length _)%nat eqn:Hrg.
  - destruct (getUserGroups fuel w a) as [[ug|e]|];
      intros [= <- <-] || discriminate; now left.
  - intros [= <- <-]. destruct (isDefined (createdAt user)) eqn:Hdef;
      cbn [negb]; [right | now left].
    repeat split. exists a. split; [reflexivity | now apply zero_length].
Qed.

(** X8: an address on the administrators' list passes both sign-up
    stages whatever the switches: with no required group the attempt is
    allowed without the block-list or the store being read. *)
Theorem admin_address_skips_signup_stages
    env fuel w account user e admins :
  ADMIN_EMAIL env = Some admins -> In e admins ->
  user_email user = Some e ->
  getRequiredGroups env (provider account) = [] ->
  signIn None env fuel w (Some account) user =
  Some (Returned true,
        if isDefined (createdAt user) then [UserLoggedIn (user_id user)] else []).
Proof.
  intros Ha Hin He Hrg. unfold signIn. rewrite He, Ha, Hrg.
  apply includes_In in Hin. rewrite Hin. cbn [negb].
  rewrite !andb_false_r. cbn [andb length Nat.ltb Nat.leb].
  destruct (isDefined (createdAt user)); reflexivity.
Qed.

(** X9: with disposable addresses rejected, a first-time user whose
    address is not an administrator's depends on the block-list: when it
    cannot be fetched the attempt throws, and when the text between the
    first and the second at-sign of the address is one of its lines the
    attempt is denied; nothing is tracked either way. *)
Theorem disposable_domain_is_denied
    env fuel w account user (local domain : string) :
  createdAt user = None ->
  user_email user = Some (local +:+ String "@" domain) ->
  occurs "@" local = false -> occurs "@" domain = false ->
  match ADMIN_EMAIL env with
  | Some admins => ~ In (local +:+ String "@" domain) admins
  | None => True
  end ->
  REJECT_DISPOSABLE_EMAILS env = true ->
  (disposable_blocklist w = None ->
   signIn None env fuel w (Some account) user = Some (Thrown HTTPError, [])) /\
  (forall lines,
     disposable_blocklist w = Some (join "010" lines) ->
     Forall (fun l => occurs "010" l = false) lines ->
     In domain lines ->
     signIn None env fuel w (Some account) user = Some (Returned false, [])).
Proof.
  intros Hnew He Hl Hd Hadmin Hreject.
  assert (match ADMIN_EMAIL env with
          | None => true
          | Some admins => negb (includes admins (local +:+ String "@" domain))
          end = true) as Hcond.
  { destruct (ADMIN_EMAIL env) as [admins|]; [|reflexivity].
    now rewrite (not_listed _ _ Hadmin). }
  split.
  - intros Hlist. unfold signIn.
    rewrite He, Hnew, address_not_empty, Hcond, Hreject, Hlist. reflexivity.
  - intros lines Hlist Hlines Hin. unfold signIn.
    rewrite He, Hnew, address_not_empty, Hcond, Hreject, Hlist.
    cbn [isDefined negb andb].
    rewrite split_join; [|intros ->; destruct Hin | exact Hlines].
    rewrite (domain_of_address _ _ Hl Hd).
    apply includes_In in Hin. now rewrite Hin.
Qed.

(** X10: with sign-up switched off, a first-time user whose address is
    not an administrator's and has no pending invitation of either kind is
    refused with the sign-up error, once past the disposable-address stage
    (the rejection is off, or the list was fetched and does not hold the
    domain). *)
Theorem signup_freeze_refuses_uninvited env fuel w account user e :
  DISABLE_SIGNUP env = true ->
  createdAt user = None ->
  user_email user = Some e -> e <> "" ->
  match ADMIN_EMAIL env with
  | Some admins => ~ In e admins
  | None => True
  end ->
  CustomAdapter.getNewUserInvitations (prisma w) e = ([], []) ->
  (REJECT_DISPOSABLE_EMAILS env = false \/
   exists data, disposable_blocklist w = Some data /\
     forall d, nth_error (split "@" e) 1 = Some d ->
               includes (split "010" data) d = false) ->
  signIn None env fuel w (Some account) user = Some (Thrown SignUpDisabled, []).
Proof.
  intros Hoff Hnew He Hne Hadmin Hinv Hpass. unfold signIn.
  apply String.eqb_neq in Hne. rewrite He, Hnew, Hne, Hoff, Hinv.
  assert (includes_admin : match ADMIN_EMAIL env with
                           | None => false
                           | Some admins => includes admins e
                           end = false).
  { destruct (ADMIN_EMAIL env) as [admins|]; [|reflexivity].
    now apply not_listed. }
  rewrite includes_admin. cbn [isDefined negb andb length Nat.eqb].
  destruct Hpass as [Hrej|(data & Hdata & Hclean)].
  - rewrite Hrej, andb_false_r. reflexivity.
  - rewrite Hdata.
    destruct (match ADMIN_EMAIL env with
              | Some admins => negb (includes admins e)
              | None => true
              end && REJECT_DISPOSABLE_EMAILS env); [|reflexivity].
    destruct (nth_error (split "@" e) 1) as [d|] eqn:Ed; [|reflexivity].
    now rewrite (Hclean d eq_refl).
Qed.

(** X11: a pending invitation lifts the sign-up freeze.  When every
    address the user could sign up with has an invitation of either kind,
    the callback decides as it would with sign-up enabled and everything
    else configured alike. *)
Theorem invitation_lifts_signup_freeze
    restricted env env' fuel w account user :
  (forall e, user_email user = Some e ->
             CustomAdapter.getNewUserInvitations (prisma w) e <> ([], [])) ->
  DISABLE_SIGNUP env' = false ->
  ADMIN_EMAIL env' = ADMIN_EMAIL env ->
  REJECT_DISPOSABLE_EMAILS env' = REJECT_DISPOSABLE_EMAILS env ->
  GITLAB_REQUIRED_GROUPS env' = GITLAB_REQUIRED_GROUPS env ->
  signIn restricted env fuel w account user =
  signIn restricted env' fuel w account user.
Proof.
  intros Hinv Hoff Ha Hr Hg. unfold signIn, getRequiredGroups.
  rewrite Hoff, Ha, Hr, Hg. cbn [andb].
  destruct restricted as [[]|]; [reflexivity|].
  destruct account as [a|]; [|reflexivity].
  destruct (user_email user) as [e|] eqn:He; [|reflexivity].
  specialize (Hinv e eq_refl).
  destruct (CustomAdapter.getNewUserInvitations (prisma w) e) as [invs wis].
  assert ((length invs =? 0)%nat && (length wis =? 0)%nat = false) as ->.
  { destruct invs, wis; try reflexivity. congruence. }
  destruct (DISABLE_SIGNUP env && _ && _ && _); reflexivity.
Qed.

End AuthRouteMore.

(** ** The callback and the adapter agree on who may sign up *)

Module SignupGates.
Import JS JSFacts AuthRoute AuthRouteFacts AuthRouteMore.

Section Gates.

Variable parseWorkspaceDefaultPlan : string -> string.

(** When the adapter refuses a new user, this is why. *)
Lemma createUser_refusal env io p data :
  (CustomAdapter.createUser parseWorkspaceDefaultPlan env io p data).1.1 =
    Thrown CustomAdapter.SignupDisabled ->
  exists e admins,
    CustomAdapter.email data = Some e /\ e <> "" /\
    DISABLE_SIGNUP env = true /\
    ADMIN_EMAIL env = Some admins /\ ~ In e admins /\
    CustomAdapter.getNewUserInvitations p e = ([], []).
Proof.
  unfold CustomAdapter.createUser, CustomAdapter.MissingEmail,
    CustomAdapter.SignupDisabled.
  destruct (CustomAdapter.email data) as [e|]; [|simpl; discriminate].
  destruct (String.eqb_spec e "") as [->|Hne]; [simpl; discriminate|].
  destruct (CustomAdapter.getNewUserInvitations p e) as [invs wis] eqn:Einv.
  destruct (DISABLE_SIGNUP env); [|cbn [andb]; unfold CustomAdapter.user_create;
    destruct (CustomAdapter.user_taken _ _ _); simpl; discriminate].
  destruct (ADMIN_EMAIL env) as [admins|]; [|cbn [andb]; unfold CustomAdapter.user_create;
    destruct (CustomAdapter.user_taken _ _ _); simpl; discriminate].
  destruct (forallb _ admins) eqn:Hall; [|cbn [andb]; unfold CustomAdapter.user_create;
    destruct (CustomAdapter.user_taken _ _ _); simpl; discriminate].
  destruct invs; [|cbn [andb length Nat.eqb]; unfold CustomAdapter.user_create;
    destruct (CustomAdapter.user_taken _ _ _); simpl; discriminate].
  destruct wis; [|cbn [andb length Nat.eqb]; unfold CustomAdapter.user_create;
    destruct (CustomAdapter.user_taken _ _ _); simpl; discriminate].
  intros _. exists e, admins.
  do 5 (split; [reflexivity || assumption || idtac|]); [|exact Einv].
  intros Hin. rewrite forallb_forall in Hall. specialize (Hall e Hin).
  now rewrite String.eqb_refl in Hall.
Qed.

(** X12: the callback is at least as strict as the adapter.  A first-time
    user the callback allows is never refused by [createUser] as a forbidden
    sign-up, on the same store and configuration, for the same address. *)
Theorem allowed_user_is_not_refused_by_createUser
    env fuel w account user e events io data :
  signIn None env fuel w (Some account) user = Some (Returned true, events) ->
  createdAt user = None ->
  user_email user = Some e ->
  CustomAdapter.email data = Some e ->
  (CustomAdapter.createUser parseWorkspaceDefaultPlan env io (prisma w) data).1.1 <>
    Thrown CustomAdapter.SignupDisabled.
Proof.
  intros Hallowed Hnew He Hdata Hrefused.
  apply createUser_refusal in Hrefused
    as (e' & admins & He' & Hne & Hoff & Hadmins & Hnot & Hinv).
  assert (e' = e) as -> by congruence.
  revert Hallowed. unfold signIn.
  apply String.eqb_neq in Hne.
  rewrite He, Hnew, Hne, Hoff, Hadmins, Hinv, (not_listed _ _ Hnot).
  cbn [isDefined negb andb length Nat.eqb].
  destruct (REJECT_DISPOSABLE_EMAILS env); [|discriminate].
  destruct (disposable_blocklist w) as [data'|]; [|discriminate].
  destruct (nth_error _ 1) as [d|]; [|discriminate].
  destruct (includes _ d); discriminate.
Qed.

End Gates.

End SignupGates.

(** ** The group listing *)

Module GroupListing.
Import JS AuthRoute AuthRouteFacts.

Lemma getGitlabGroups_S fuel w tok page :
  getGitlabGroups (S fuel) w tok page =
  match gitlab_groups w tok page with
  | None => Some (Thrown HTTPError)
  | Some res =>
      match next_page res with
      | Some nextPage =>
          if (nextPage =? 0)%Z then Some (Returned (page_groups res))
          else
            match getGitlabGroups fuel w tok nextPage with
            | Some (Returned more) => Some (Returned (page_groups res ++ more))
            | Some (Thrown e) => Some (Thrown e)
            | None => None
            end
      | None => Some (Returned (page_groups res))
      end
  end.
Proof. reflexivity. Qed.

Lemma getGitlabGroups_paged fuel w tok start (pages : list (list GitlabGroup)) :
  (0 < start)%Z -> pages <> [] ->
  (forall (i : nat) page,
     nth_error pages i = Some page ->
     gitlab_groups w tok (start + Z.of_nat i) =
     Some {| page_groups := page;
             next_page := if (S i <? length pages)%nat
                          then Some (start + Z.of_nat (S i))%Z else None |}) ->
  getGitlabGroups (length pages + fuel) w tok start =
  Some (Returned (concat pages)).
Proof.
  revert start. induction pages as [|page pages IH]; intros start Hpos Hne Hs;
    [congruence|].
  cbn [length Nat.add getGitlabGroups].
  pose proof (Hs 0%nat page eq_refl) as H0.
  replace (start + Z.of_nat 0)%Z with start in H0 by lia. rewrite H0.
  cbn [page_groups next_page length].
  destruct pages as [|page' pages].
  - cbn. now rewrite app_nil_r.
  - change (1 <? S (length (page' :: pages)))%nat with true. cbv iota.
    assert ((start + Z.of_nat 1 =? 0)%Z = false) as -> by (apply Z.eqb_neq; lia).
    replace (start + Z.of_nat 1)%Z with (start + 1)%Z by lia.
    rewrite IH; [reflexivity | lia | discriminate |].
    intros i pg Hi. specialize (Hs (S i) pg Hi).
    replace (start + 1 + Z.of_nat i)%Z with (start + Z.of_nat (S i))%Z by lia.
    rewrite Hs. do 2 f_equal.
    change (S (S i) <? length (page :: page' :: pages))%nat
      with (S i <? length (page' :: pages))%nat.
    destruct (S i <? length (page' :: pages))%nat; [f_equal; lia | reflexivity].
Qed.

(** X13: when the provider serves its groups over any number of pages,
    each announcing the next and the last announcing none, the listing
    returns the groups of all the pages, in page order, once there is fuel
    for one request per page. *)
Theorem getUserGroups_reads_every_page fuel w account
    (pages : list (list GitlabGroup)) :
  provider account = "gitlab" ->
  pages <> [] ->
  (forall (i : nat) page,
     nth_error pages i = Some page ->
     gitlab_groups w (access_token account) (1 + Z.of_nat i) =
     Some {| page_groups := page;
             next_page := if (S i <? length pages)%nat
                          then Some (1 + Z.of_nat (S i))%Z else None |}) ->
  getUserGroups (length pages + fuel) w account =
  Some (Returned (map full_path (concat pages))).
Proof.
  intros Hp Hne Hs. unfold getUserGroups. rewrite Hp.
  change ("gitlab" =? "gitlab") with true. cbv iota.
  now rewrite (getGitlabGroups_paged fuel w _ 1 pages).
Qed.


(** X15: a page that cannot be fetched loses the whole listing: the
    groups of the pages read before it are not returned. *)
Theorem getGitlabGroups_failed_page_fails_listing fuel w tok start pages :
  (0 < start)%Z ->
  (forall (i : nat) page,
     nth_error pages i = Some page ->
     gitlab_groups w tok (start + Z.of_nat i) =
     Some {| page_groups := page;
             next_page := Some (start + Z.of_nat (S i))%Z |}) ->
  gitlab_groups w tok (start + Z.of_nat (length pages)) = None ->
  getGitlabGroups (S (length pages) + fuel) w tok start = Some (Thrown HTTPError).
Proof.
  revert start. induction pages as [|page pages IH]; intros start Hpos Hs Hfail.
  - cbn [length Nat.add getGitlabGroups].
    cbn [length Z.of_nat] in Hfail. rewrite Z.add_0_r in Hfail.
    now rewrite Hfail.
  - cbn [length Nat.add]. rewrite getGitlabGroups_S.
    pose proof (Hs 0%nat page eq_refl) as H0.
    replace (start + Z.of_nat 0)%Z with start in H0 by lia. rewrite H0.
    cbn [page_groups next_page].
    assert ((start + Z.of_nat 1 =? 0)%Z = false) as -> by (apply Z.eqb_neq; lia).
    replace (start + Z.of_nat 1)%Z with (start + 1)%Z by lia.
    change (S (length pages + fuel)) with (S (length pages) + fuel)%nat.
    rewrite IH; [reflexivity | lia | |].
    + intros i pg Hi. specialize (Hs (S i) pg Hi).
      replace (start + 1 + Z.of_nat i)%Z with (start + Z.of_nat (S i))%Z by lia.
      rewrite Hs. do 3 f_equal. lia.
    + replace (start + 1 + Z.of_nat (length pages))%Z
        with (start + Z.of_nat (length (page :: pages)))%Z by (cbn [length]; lia).
      exact Hfail.
Qed.

End GroupListing.

(** ** The route handler and the limiter *)

Module RouteHandlerMore.
Import JS AuthRoute AuthRouteFacts.

Section Handler.

Variable getIp : NextApiRequest -> option string.
Variable LimiterState : Type.
Variable slidingWindow : nat -> nat -> string -> LimiterState -> bool * LimiterState.

Abbreviation handler := (handler getIp LimiterState slidingWindow).

(** X16: a HEAD request is answered 200 at once.  Any request ends in
    one of four ways: the 200 of a HEAD request, the mocked session, a
    hand-over to the library without a tag, all three with the limiter left
    alone; or, for a POST to the email sign-in route with a limiter
    configured and a caller address, a hand-over whose tag is exactly the
    limiter's refusal for that address and whose limiter state is the one
    the limiter returned. *)
Theorem handler_consults_limiter_only_for_email_signin env req st :
  (method req = "HEAD" -> handler env req st = (StatusEnd 200, st)) /\
  (handler env req st = (StatusEnd 200, st) \/
   handler env req st = (SendMockedUser, st) \/
   handler env req st = (NextAuth (getAuthOptions None), st) \/
   exists ip u redis_url,
     method req = "POST" /\
     url req = Some u /\ String.prefix "/api/auth/signin/email" u = true /\
     REDIS_URL env = Some redis_url /\ redis_url <> "" /\
     getIp req = Some ip /\ ip <> "" /\
     handler env req st =
       (NextAuth (getAuthOptions
                    (if (slidingWindow 1 60 ip st).1 then None else Some rate_limited)),
        (slidingWindow 1 60 ip st).2)).
Proof.
  unfold AuthRoute.handler, emailSignInRateLimiter. split.
  { intros ->. reflexivity. }
  destruct (method req =? "HEAD"); [now left|].
  destruct (_ && _ && NEXT_PUBLIC_E2E_TEST env); [right; now left|].
  destruct (REDIS_URL env) as [redis_url|]; [|right; right; now left].
  destruct (String.eqb_spec redis_url "") as [->|Hredis]; [right; right; now left|].
  destruct (url req) as [u|]; [|right; right; now left].
  destruct (String.prefix "/api/auth/signin/email" u) eqn:Hprefix;
    [|right; right; now left].
  destruct (String.eqb_spec (method req) "POST") as [Hpost|Hpost];
    [|right; right; now left].
  cbn [andb].
  destruct (getIp req) as [ip|] eqn:Hip; [|right; right; now left].
  destruct (String.eqb_spec ip "") as [->|Hne]; [right; right; now left|].
  right; right; right. exists ip, u, redis_url.
  repeat (split; [assumption || reflexivity|]).
  destruct (slidingWindow 1 60 ip st) as [[] st']; reflexivity.
Qed.

End Handler.

End RouteHandlerMore.

(** ** The credentials provider *)

Module CredentialsFacts.
Import JS AuthRoute CustomAdapterFacts CustomAdapterMore.

Section Credentials.

Variable parseWorkspaceDefaultPlan : string -> string.
Variable TYPEBOT_CODE : option string.
Variable client_api : option string -> option string -> option RemoteUser.

Abbreviation authorize := (authorize parseWorkspaceDefaultPlan TYPEBOT_CODE client_api).



(** X18: when [authorize] answers a user, the submitted code equals the
    configured one (two absent values count as equal), the remote host
    answered, and the store afterwards holds a user with the answered id.
    A user the store already knew is answered as the remote host described
    it, with the store untouched; otherwise the user is the one
    [createUser] made of the remote description, under the id and the
    email the adapter gave it. *)
Theorem authorize_answers_a_stored_user env io p credentials u p' fx :
  authorize env io p credentials = (Some u, p', fx) ->
  credentials ≫= authToken = TYPEBOT_CODE /\
  (exists row, CustomAdapter.getUser p' (remote_id u) = Some row) /\
  exists remote,
    client_api (credentials ≫= apiHost) (credentials ≫= tenantId) = Some remote /\
    (forall row, CustomAdapter.getUser p (remote_id remote) = Some row ->
       u = remote /\ p' = p /\ fx = []) /\
    (CustomAdapter.getUser p (remote_id remote) = None ->
       exists row,
         CustomAdapter.createUser parseWorkspaceDefaultPlan env io p
           {| CustomAdapter.id := Some (remote_id remote);
              CustomAdapter.email := remote_email remote;
              CustomAdapter.name := remote_name remote;
              CustomAdapter.image := remote_image remote;
              CustomAdapter.emailVerified := remote_emailVerified remote |}
         = (Returned row, p', fx) /\
         remote_id u = CustomAdapter.u_id row /\
         remote_email u = Some (CustomAdapter.u_email row)).
Proof.
  unfold AuthRoute.authorize.
  destruct (bool_decide _) eqn:Hcode; [|discriminate].
  apply bool_decide_eq_true in Hcode. cbn [negb].
  destruct (client_api _ _) as [remote|]; [|discriminate].
  destruct (CustomAdapter.getUser p (remote_id remote)) as [known|] eqn:Hknown.
  - intros [= <- <- <-]. split; [exact Hcode|].
    split; [exists known; first [exact Hknown | reflexivity]|].
    exists remote. split; [reflexivity|].
    split; [intros; repeat split | intros H; congruence].
  - destruct (CustomAdapter.createUser _ _ _ _ _) as [[[row|e] p1] fx1] eqn:E;
      [|discriminate].
    intros [= <- <- <-]. cbn [remote_id remote_email].
    split; [exact Hcode|]. split.
    + exists row. pose proof E as E'. apply createUser_returned in E'
        as (a & invs & wis & _ & _ & _ & Hrow & Htaken & Husers & _).
      apply user_taken_split in Htaken as [Hid _].
      unfold CustomAdapter.getUser. rewrite Husers.
      apply find_app_fresh; [exact Hid | apply String.eqb_refl].
    + exists remote. split; [reflexivity|].
      split; [intros known H; congruence|].
      intros _. exists row. split; [exact E|]. split; reflexivity.
Qed.

End Credentials.

End CredentialsFacts.

(** ** The frame of the profile update *)

Module UserEndpointMore.
Import JS JSFacts UserEndpoint UserEndpointFacts.


Lemma apply_data_idempotent (data : JS.object) (row : Row) :
  apply_data data (apply_data data row) = apply_data data row.
Proof.
  apply map_eq. intros k. rewrite !apply_data_lookup.
  destruct (data !! k) as [[]|]; reflexivity.
Qed.

Lemma has_id_patched id (data : JS.object) (row : Row) :
  data !! "id" = None ->
  has_id id (apply_data (update_data data) row) = has_id id row.
Proof.
  intros Hid. unfold has_id. now rewrite patched_lookup, Hid.
Qed.

Lemma update_where_id_again id (data : JS.object) (rows : list Row) r' rows' :
  data !! "id" = None ->
  update_where_id id (update_data data) rows = Some (r', rows') ->
  update_where_id id (update_data data) rows' = Some (r', rows').
Proof.
  intros Hid. revert r' rows'.
  induction rows as [|r rows IH]; intros r' rows'; [discriminate|].
  cbn [update_where_id]. destruct (has_id id r) eqn:Hr.
  - intros [= <- <-]. cbn [update_where_id].
    now rewrite (has_id_patched _ _ _ Hid), Hr, apply_data_idempotent.
  - destruct (update_where_id id (update_data data) rows) as [[r1 rows1]|];
      [|discriminate].
    intros [= <- <-]. cbn [update_where_id]. now rewrite Hr, (IH _ _ eq_refl).
Qed.

Section Handler.

Variable JSON_parse : string -> option JS.object.


(** X20: a PATCH that does not set the id is idempotent on the store:
    sent again, it gets the same answer and leaves the table as the first
    one left it (the event, if any, is tracked again). *)
Theorem patch_twice_is_patch_once
    getAuthenticatedUser req data (users : list Row) r users' events :
  read_body JSON_parse (body req) = Returned data ->
  data !! "id" = None ->
  handler getAuthenticatedUser JSON_parse req users = (Returned r, users', events) ->
  handler getAuthenticatedUser JSON_parse req users' = (Returned r, users', events).
Proof.
  intros Hbody Hid. unfold handler.
  destruct (getAuthenticatedUser req) as [user|]; [|intros [= <- <- <-]; reflexivity].
  destruct (method req =? "PATCH"); [|intros [= <- <- <-]; reflexivity].
  rewrite Hbody. unfold prisma_user_update.
  destruct (update_where_id _ _ users) as [[row users1]|] eqn:E; [|discriminate].
  intros [= <- <- <-]. now rewrite (update_where_id_again _ _ _ _ _ Hid E).
Qed.

(** X21: the handler never compares the caller with the user of the
    route.  Two authenticated callers sending the same request get the same
    answer and leave the same table; only the user id on the tracked event
    is the caller's own. *)
Theorem any_signed_in_caller_patches_any_user
    (auth1 auth2 : NextApiRequest -> option SessionUser) req u1 u2 (users : list Row) :
  auth1 req = Some u1 -> auth2 req = Some u2 ->
  (handler auth1 JSON_parse req users).1 = (handler auth2 JSON_parse req users).1 /\
  (forall e, In e (handler auth1 JSON_parse req users).2 -> e = UserUpdated (user_id u1)) /\
  length (handler auth1 JSON_parse req users).2 =
    length (handler auth2 JSON_parse req users).2.
Proof.
  intros H1 H2. unfold handler. rewrite H1, H2.
  destruct (method req =? "PATCH"); [|repeat split; intros ? []].
  destruct (read_body JSON_parse (body req)) as [data|e]; [|repeat split; intros ? []].
  destruct (prisma_user_update _ _ _) as [[row users1]|e]; [|repeat split; intros ? []].
  cbn [fst snd]. destruct (tracked data); repeat split; try intros ? []; auto.
  contradiction.
Qed.

End Handler.

End UserEndpointMore.

(** ** The further properties on sample data *)

Module MoreExamples.
Import JS Fixtures.


Lemma createUser_webhook_is_best_effort_witness :
  (CustomAdapter.createUser free_plan with_webhook webhook_down sample_db
     (payload "new@example.org")).1 =
  (CustomAdapter.createUser free_plan with_webhook sample_io sample_db
     (payload "new@example.org")).1.
Proof.
  apply (CustomAdapterMore.createUser_webhook_is_best_effort free_plan with_webhook
           sample_io webhook_down sample_db (payload "new@example.org")
           eq_refl eq_refl eq_refl).
Defined.


Lemma createUser_then_getUser_witness :
  exists u p' fx,
    CustomAdapter.createUser free_plan signup_off_no_admins sample_io sample_db
      (payload "new@example.org") = (Returned u, p', fx) /\
    CustomAdapter.getUser p' (CustomAdapter.u_id u) = Some u /\
    CustomAdapter.getUserByEmail p' (CustomAdapter.u_email u) = Some u.
Proof.
  destruct (CustomAdapter.createUser free_plan signup_off_no_admins sample_io
              sample_db (payload "new@example.org")) as [[[u|e] p'] fx] eqn:E;
    [|exfalso; vm_compute in E; discriminate].
  exists u, p', fx. split; [reflexivity|].
  destruct (CustomAdapterMore.createUser_then_getUser _ _ _ _ _ _ _ _ E)
    as (Hid & Hemail & _).
  split; assumption.
Defined.

Lemma createUser_inserts_user_and_default_token_witness :
  exists u p' fx,
    CustomAdapter.createUser free_plan signup_off_no_admins sample_io sample_db
      (payload "new@example.org") = (Returned u, p', fx) /\
    CustomAdapter.users p' = CustomAdapter.users sample_db ++ [u] /\
    CustomAdapter.u_id u = "cuid1".
Proof.
  destruct (CustomAdapter.createUser free_plan signup_off_no_admins sample_io
              sample_db (payload "new@example.org")) as [[[u|e] p'] fx] eqn:E;
    [|exfalso; vm_compute in E; discriminate].
  exists u, p', fx. split; [reflexivity|].
  destruct (CustomAdapterMore.createUser_inserts_user_and_default_token
              _ _ _ _ _ _ _ _ E) as (Husers & _ & _ & _ & _ & Hid & _).
  split; [exact Husers | exact Hid].
Defined.

Lemma created_token_is_used_once_witness :
  exists p1 p2,
    CustomAdapter.createVerificationToken sample_db
      {| CustomAdapter.identifier := "carol@example.org";
         CustomAdapter.token := "111111";
         CustomAdapter.expires := 1700000300 |} =
      (Returned {| CustomAdapter.identifier := "carol@example.org";
                   CustomAdapter.token := "111111";
                   CustomAdapter.expires := 1700000300 |}, p1) /\
    CustomAdapter.useVerificationToken p1 ("carol@example.org", "111111") =
      (Returned (Some {| CustomAdapter.identifier := "carol@example.org";
                         CustomAdapter.token := "111111";
                         CustomAdapter.expires := 1700000300 |}), p2).
Proof.
  destruct (CustomAdapterMore.created_token_is_used_once sample_db
              {| CustomAdapter.identifier := "carol@example.org";
                 CustomAdapter.token := "111111";
                 CustomAdapter.expires := 1700000300 |}
              ltac:(vm_compute; reflexivity))
    as (p1 & p2 & Hcreate & _ & Huse & _).
  exists p1, p2. split; assumption.
Defined.

Lemma signIn_tracks_only_allowed_returning_users_witness :
  [UserLoggedIn "u1"] = [] \/
  ([UserLoggedIn "u1"] = [UserLoggedIn (AuthRoute.user_id returning_user)] /\
   Returned true = Returned true /\
   AuthRoute.isDefined (AuthRoute.createdAt returning_user) = true /\
   @None AuthRoute.Restricted = None /\
   exists a, Some github_account = Some a /\
             AuthRoute.getRequiredGroups locked_down (AuthRoute.provider a) = []).
Proof.
  exact (AuthRouteMore.signIn_tracks_only_allowed_returning_users
           None locked_down 2 sample_world (Some github_account) returning_user
           (Returned true) [UserLoggedIn "u1"] eq_refl).
Defined.

Lemma admin_address_skips_signup_stages_witness :
  AuthRoute.signIn None locked_down 2 sample_world (Some github_account)
    (newcomer "root@example.org") = Some (Returned true, []).
Proof.
  apply (AuthRouteMore.admin_address_skips_signup_stages locked_down 2 sample_world
           github_account (newcomer "root@example.org") "root@example.org"
           ["root@example.org"] eq_refl ltac:(now left) eq_refl eq_refl).
Defined.

Lemma disposable_domain_is_denied_witness :
  AuthRoute.signIn None locked_down 2 sample_world (Some github_account)
    (newcomer "joe@yopmail.com") = Some (Returned false, []).
Proof.
  destruct (AuthRouteMore.disposable_domain_is_denied locked_down 2 sample_world
              github_account (newcomer "joe@yopmail.com") "joe" "yopmail.com"
              eq_refl eq_refl eq_refl eq_refl
              ltac:(intros [H|[]]; discriminate) eq_refl) as (_ & Hlisted).
  apply (Hlisted ["mailinator.com"; "yopmail.com"]); [reflexivity | |].
  - repeat constructor.
  - right. now left.
Defined.

Lemma signup_freeze_refuses_uninvited_witness :
  AuthRoute.signIn None locked_down 2 sample_world (Some github_account)
    (newcomer "new@example.org") = Some (Thrown AuthRoute.SignUpDisabled, []).
Proof.
  apply (AuthRouteMore.signup_freeze_refuses_uninvited locked_down 2 sample_world
           github_account (newcomer "new@example.org") "new@example.org"
           eq_refl eq_refl eq_refl ltac:(discriminate)
           ltac:(intros [H|[]]; discriminate) eq_refl).
  right. eexists. split; [reflexivity|].
  intros d Hd. vm_compute in Hd. injection Hd as <-. reflexivity.
Defined.

Lemma invitation_lifts_signup_freeze_witness :
  AuthRoute.signIn None locked_down 2 sample_world (Some github_account)
    (newcomer "guest@example.org") =
  AuthRoute.signIn None locked_down_open_signup 2 sample_world (Some github_account)
    (newcomer "guest@example.org").
Proof.
  apply (AuthRouteMore.invitation_lifts_signup_freeze None locked_down
           locked_down_open_signup 2 sample_world (Some github_account)
           (newcomer "guest@example.org"));
    try reflexivity.
  intros e [= <-]. discriminate.
Defined.

Lemma allowed_user_is_not_refused_by_createUser_witness :
  (CustomAdapter.createUser free_plan locked_down sample_io sample_db
     (payload "guest@example.org")).1.1 <> Thrown CustomAdapter.SignupDisabled.
Proof.
  apply (SignupGates.allowed_user_is_not_refused_by_createUser free_plan
           locked_down 2 sample_world github_account (newcomer "guest@example.org")
           "guest@example.org" [] sample_io (payload "guest@example.org")
           eq_refl eq_refl eq_refl eq_refl).
Defined.

Lemma getUserGroups_reads_every_page_witness :
  AuthRoute.getUserGroups 2 paged_world gitlab_account = Some (Returned ["a"; "b"]).
Proof.
  apply (GroupListing.getUserGroups_reads_every_page 0 paged_world gitlab_account
           [[{| AuthRoute.full_path := "a" |}]; [{| AuthRoute.full_path := "b" |}]]
           eq_refl ltac:(discriminate)).
  intros [|[|[|i]]] page; cbn; intros [= <-]; reflexivity.
Defined.


Lemma getGitlabGroups_failed_page_fails_listing_witness :
  AuthRoute.getGitlabGroups 2 broken_world (Some "glpat") 1 = Some (Thrown HTTPError).
Proof.
  apply (GroupListing.getGitlabGroups_failed_page_fails_listing 0 broken_world
           (Some "glpat") 1 [[{| AuthRoute.full_path := "a" |}]]);
    [reflexivity | | reflexivity].
  intros [|[|i]] page; cbn; intros [= <-]; reflexivity.
Defined.

Lemma handler_consults_limiter_only_for_email_signin_witness :
  AuthRoute.handler ip_of_sample _ log_limiter locked_down head_request
    ([("203.0.113.7", 100)], 130) =
  (AuthRoute.StatusEnd 200, ([("203.0.113.7", 100)], 130)).
Proof.
  apply (RouteHandlerMore.handler_consults_limiter_only_for_email_signin
           ip_of_sample _ log_limiter locked_down head_request).
  reflexivity.
Defined.


Lemma authorize_answers_a_stored_user_witness :
  exists u p' fx,
    AuthRoute.authorize free_plan (Some "s3cret") remote_host with_webhook sample_io
      sample_db (Some good_credentials) = (Some u, p', fx) /\
    exists row, CustomAdapter.getUser p' (AuthRoute.remote_id u) = Some row.
Proof.
  destruct (AuthRoute.authorize free_plan (Some "s3cret") remote_host with_webhook
              sample_io sample_db (Some good_credentials)) as [[[u|] p'] fx] eqn:E;
    [|exfalso; vm_compute in E; discriminate].
  exists u, p', fx. split; [reflexivity|].
  now destruct (CredentialsFacts.authorize_answers_a_stored_user _ _ _ _ _ _ _ _ _ _ E)
    as (_ & Hstored & _).
Defined.


Lemma patch_twice_is_patch_once_witness :
  exists r users' events,
    UserEndpoint.handler signed_in_as_alice no_text
      (patch {[ "company" := Str "Initech" ]}) [alice_row] =
      (Returned r, users', events) /\
    UserEndpoint.handler signed_in_as_alice no_text
      (patch {[ "company" := Str "Initech" ]}) users' =
      (Returned r, users', events).
Proof.
  destruct (UserEndpoint.handler signed_in_as_alice no_text
              (patch {[ "company" := Str "Initech" ]}) [alice_row])
    as [[[r|e] users'] events] eqn:E; [|exfalso; vm_compute in E; discriminate].
  exists r, users', events. split; [reflexivity|].
  exact (UserEndpointMore.patch_twice_is_patch_once no_text signed_in_as_alice
           (patch {[ "company" := Str "Initech" ]})
           ({[ "company" := Str "Initech" ]} : JS.object)
           [alice_row] r users' events eq_refl
           (lookup_singleton_ne "company" "id" (Str "Initech") ltac:(discriminate)) E).
Defined.

Lemma any_signed_in_caller_patches_any_user_witness :
  (UserEndpoint.handler signed_in_as_alice no_text
     (patch {[ "company" := Str "Initech" ]}) [alice_row]).1 =
  (UserEndpoint.handler signed_in_as_bob no_text
     (patch {[ "company" := Str "Initech" ]}) [alice_row]).1.
Proof.
  apply (UserEndpointMore.any_signed_in_caller_patches_any_user no_text
           signed_in_as_alice signed_in_as_bob
           (patch {[ "company" := Str "Initech" ]}) alice bob [alice_row]
           eq_refl eq_refl).
Defined.

End MoreExamples.
